(** * meteor-mocha test daemon: a shallow embedding of server.js

    The development follows the daemon variant of the package's server.js
    (the file with heartbeats, bail, the JSON reporter and graceful
    shutdown).  Pure helpers (normalizePath, pathMatchesPattern,
    escapeRegex, findSuitesForFile) are Rocq functions on strings; the
    module-level variables of the file (daemonTestsRunning,
    clientDisconnected, shuttingDown, activeConnections, process.env, the
    patched output functions) form one record that every handler threads
    through a small state monad.  A JavaScript string is a Rocq string,
    one character for one code unit.  What the daemon sends is kept as the
    sequence of calls it makes on the response objects, in order; what can
    happen to it (a request, a write to an output stream, a signal, the
    runner calling back) is an input of a transition system.

    Beside the run coordinator the file embeds the walker behind
    /test/files, the report of /test/health, resetAllCollections on a
    database given as a finite map, and, in the module Startup, the path
    taken without TEST_DAEMON: the functions that run the server and the
    client tests once and exit, with the answers of the runner, the
    browser driver and the coverage handler as the inputs of a second
    transition system. *)

From Stdlib Require Import Ascii.
From stdpp Require Import base tactics option list strings pretty gmap.


(** ** JavaScript string helpers *)

Module Js.

Definition is_slash (c : ascii) : bool := Ascii.eqb c "/".
Definition is_backslash (c : ascii) : bool := Ascii.eqb c "\".
Definition is_newline (c : ascii) : bool := Ascii.eqb c "010".

(** A string is truthy in JavaScript when it is not empty. *)
Definition truthy (s : string) : bool :=
  match s with "" => false | String _ _ => true end.

(** [a || b] on values that are a string or undefined. *)
Definition or_else (a b : option string) : option string :=
  match a with
  | Some s => if truthy s then Some s else b
  | None => b
  end.

(** Every character of [s] is a slash: [s] is empty or matches [/^\/+$/]. *)
Fixpoint all_slashes (s : string) : bool :=
  match s with
  | "" => true
  | String c r => is_slash c && all_slashes r
  end.

(** [s.replace(/\/+$/, '')]: the match starts at the leftmost position
    from which the rest of the string is a non-empty run of slashes. *)
Fixpoint stripTrailingSlashes (s : string) : string :=
  match s with
  | "" => ""
  | String c r => if all_slashes s then "" else String c (stripTrailingSlashes r)
  end.

(** [s.replace(/^\/+/, '')]. *)
Fixpoint stripLeadingSlashes (s : string) : string :=
  match s with
  | "" => ""
  | String c r => if is_slash c then stripLeadingSlashes r else s
  end.

(** [s.replace(/\\/g, '/')]. *)
Fixpoint backslashesToSlashes (s : string) : string :=
  match s with
  | "" => ""
  | String c r =>
      String (if is_backslash c then "/"%char else c) (backslashesToSlashes r)
  end.

(** [s.split('/')]; the empty string splits into one empty segment. *)
Fixpoint split_slash (s : string) : list string :=
  match s with
  | "" => [""]
  | String c r =>
      if is_slash c then "" :: split_slash r
      else match split_slash r with
           | seg :: segs => String c seg :: segs
           | [] => [String c ""]
           end
  end.

(** [parts.join(sep)]. *)
Fixpoint join (sep : string) (parts : list string) : string :=
  match parts with
  | [] => ""
  | [p] => p
  | p :: rest => p +:+ sep +:+ join sep rest
  end.

(** [s.replace(/\n$/, '')]: without the m flag, [$] is the end of input. *)
Fixpoint stripTrailingNewline (s : string) : string :=
  match s with
  | "" => ""
  | String c "" => if is_newline c then "" else s
  | String c r => String c (stripTrailingNewline r)
  end.

(** [a || d] where [a] is a string or null and [d] a string. *)
Definition or_str (a : option string) (d : string) : string :=
  match a with
  | Some s => if truthy s then s else d
  | None => d
  end.

(** White space and line terminators among the code units below 256. *)
Definition is_space (c : ascii) : bool :=
  existsb (Ascii.eqb c) ["009"; "010"; "011"; "012"; "013"; " "; "160"]%char.

Fixpoint trimStart (s : string) : string :=
  match s with
  | "" => ""
  | String c r => if is_space c then trimStart r else s
  end.

Fixpoint all_space (s : string) : bool :=
  match s with
  | "" => true
  | String c r => is_space c && all_space r
  end.

Fixpoint trimEnd (s : string) : string :=
  match s with
  | "" => ""
  | String c r => if all_space s then "" else String c (trimEnd r)
  end.

(** [s.trim()] *)
Definition trim (s : string) : string := trimEnd (trimStart s).

(** [s.replace(re, tmpl)] for a global regex [re] that is one character
    class: every character of the class is replaced by [tmpl] applied to
    it (the template's [$&]), the others are copied. *)
Fixpoint replaceClassAll (cls : ascii → bool) (tmpl : ascii → string)
    (s : string) : string :=
  match s with
  | "" => ""
  | String c r =>
      (if cls c then tmpl c else String c "") +:+ replaceClassAll cls tmpl r
  end.

End Js.

(** ** Path Matcher *)

(** normalizePath *)
Definition normalizePath (filepath : string) : string :=
  if negb (Js.truthy filepath) then filepath
  else Js.backslashesToSlashes (Js.stripLeadingSlashes filepath).

(** The segments pathMatchesPattern compares: trailing slashes removed, then
    split on the slash. *)
Definition segments (path : string) : list string :=
  Js.split_slash (Js.stripTrailingSlashes path).

(** The inner loop of pathMatchesPattern, entered at index [i] with [n]
    iterations left: [fileSegments[start + i] !== patternSegments[i]] breaks
    with [matches = false]. *)
Fixpoint segmentsMatchFrom (fileSegments patternSegments : list string)
    (start i n : nat) : bool :=
  match n with
  | 0 => true
  | S n' =>
      if bool_decide (fileSegments !! (start + i) = patternSegments !! i)
      then segmentsMatchFrom fileSegments patternSegments start (S i) n'
      else false
  end.

(** The outer loop, entered at [start] with [n] iterations left. *)
Fixpoint searchFrom (fileSegments patternSegments : list string)
    (start n : nat) : bool :=
  match n with
  | 0 => false
  | S n' =>
      if segmentsMatchFrom fileSegments patternSegments start 0
           (length patternSegments)
      then true
      else searchFrom fileSegments patternSegments (S start) n'
  end.

Definition pathMatchesPattern (filePath pattern : string) : bool :=
  let fileSegments := segments filePath in
  let patternSegments := segments pattern in
  if length fileSegments <? length patternSegments then false
  else searchFrom fileSegments patternSegments 0
         (length fileSegments - length patternSegments + 1).

(** The pattern's segments occur as a contiguous run in the file's. *)
Definition contiguous_run (ps fs : list string) : Prop :=
  ∃ pre post, fs = pre ++ ps ++ post.

(** The pattern's segments sit in the file's at offset [k]. *)
Definition occurs_at (ps fs : list string) (k : nat) : Prop :=
  take (length ps) (drop k fs) = ps.

(** ** Cleaning the database *)

(** resetAllCollections on a database given as the documents of each
    collection, by the collection's name: the names are listed first, then
    every collection whose name does not start with "system." has all its
    documents deleted.  No call of the driver fails. *)
Definition resetAllCollections {doc : Type} (db : gmap string (list doc))
    : gmap string (list doc) :=
  let collections := (map_to_list db).*1 in
  foldl (λ db name,
           if String.prefix "system." name then db
           else <[name := []]> db)
        db collections.

(** ** Suite Registry Walker *)

(** The character class of escapeRegex's regex, [[.*+?^${}()|[\]\\]]. *)
Definition isRegexSpecial (c : ascii) : bool :=
  existsb (Ascii.eqb c)
    ["."; "*"; "+"; "?"; "^"; "$"; "{"; "}"; "("; ")"; "|"; "["; "]"; "\"]%char.

(** The replacement template ['\\$&']: a backslash, then the match. *)
Definition backslashed (c : ascii) : string := String "\" (String c "").

(** escapeRegex *)
Definition escapeRegex (str : string) : string :=
  Js.replaceClassAll isRegexSpecial backslashed str.

(** A Mocha suite as the walkers see it.  [s_file] is the [file] property
    set by the wrapped describe, [s_fullTitle] the result of the suite's
    [fullTitle()] method, which belongs to Mocha. *)
#[warnings="-register-all"]
Inductive Suite : Type :=
  mkSuite {
    s_title : string;
    s_file : option string;
    s_fullTitle : string;
    s_suites : list Suite
  }.

(** The inner function findSuites of findSuitesForFile; the result is what
    the call pushes onto fileSuites, in order. *)
Fixpoint findSuites (normalizedPattern : string) (suite : Suite)
    (parentFile : option string) : list string :=
  let file := Js.or_else (s_file suite) parentFile in
  let pushed :=
    match file with
    | Some f =>
        if Js.truthy f
        then if pathMatchesPattern (normalizePath f) normalizedPattern
                  && Js.truthy (s_title suite)
             then [escapeRegex (s_fullTitle suite)]
             else []
        else []
    | None => []
    end in
  pushed ++ concat (map (λ child, findSuites normalizedPattern child file)
                        (s_suites suite)).

Definition findSuitesForFile (root : Suite) (filePattern : string)
    : list string :=
  let normalizedPattern := normalizePath filePattern in
  findSuites normalizedPattern root None.

(** ** The file map of /test/files *)

(** The inner function walkSuites of buildFileMap; [fileMap] is the object
    the calls fill, a file's entry being created empty before the first
    title is pushed onto it.  A file name is not the name of a property
    that objects inherit. *)
Fixpoint walkSuites (suite : Suite) (parentFile : option string)
    (fileMap : gmap string (list string)) : gmap string (list string) :=
  let file := Js.or_else (s_file suite) parentFile in
  let fileMap' :=
    match file with
    | Some f =>
        if Js.truthy f && Js.truthy (s_title suite)
        then <[f := default [] (fileMap !! f) ++ [s_fullTitle suite]]> fileMap
        else fileMap
    | None => fileMap
    end in
  foldl (λ fm child, walkSuites child file fm) fileMap' (s_suites suite).

(** buildFileMap *)
Definition buildFileMap (root : Suite) : gmap string (list string) :=
  walkSuites root None ∅.

(** The reading of a regular-expression source as one literal string, after
    the ECMAScript pattern grammar: a backslash followed by a syntax
    character stands for that character, a character that is not a syntax
    character stands for itself, and a source with an unescaped syntax
    character (an active metacharacter) or a dangling backslash is not a
    literal. *)
Fixpoint literal_of_pattern (src : string) : option string :=
  match src with
  | "" => Some ""
  | String c r =>
      if Js.is_backslash c then
        match r with
        | String d r' =>
            if isRegexSpecial d
            then String d <$> literal_of_pattern r'
            else None
        | "" => None
        end
      else if isRegexSpecial c then None
      else String c <$> literal_of_pattern r
  end.

(** ** Values, events and connections *)

(** The values the runner may hand to its completion callback. *)
Inductive jsval : Type :=
  | JUndefined
  | JNull
  | JBool (b : bool)
  | JNum (n : Z)
  | JStr (s : string).

(** [typeof v === 'number'] *)
Definition typeof_number (v : jsval) : bool :=
  match v with JNum _ => true | _ => false end.

(** [`${v}`] *)
Definition to_display (v : jsval) : string :=
  match v with
  | JUndefined => "undefined"
  | JNull => "null"
  | JBool true => "true"
  | JBool false => "false"
  | JNum n => pretty n
  | JStr s => s
  end.

(** The payload objects written to the event stream, by their [type]. *)
Inductive event : Type :=
  | EvStart (grep : string) (invert : bool)
  | EvLog (data : string)
  | EvError (data : string)
  | EvJson (data : string)
  | EvHeartbeat
  | EvDone (failures : jsval)
  | EvShutdown (reason : string).

(** A response object is known by its identity. *)
Definition conn : Type := positive.

(** The calls made on a response object. *)
Inductive call : Type :=
  | WriteHead (status : nat) (contentType : string)
  | Write (e : event)
  | End.

Definition is_log (c : call) : bool :=
  match c with Write (EvLog _) => true | _ => false end.


(** ** The daemon's state *)

(** A patchable output function holds its native implementation or the
    interceptor installed by runDaemonTests. *)
Inductive writer : Type := Native | Patched.

Record output_hooks : Type := mkHooks {
  stdout_write : writer;   (* process.stdout.write *)
  stderr_write : writer;   (* process.stderr.write *)
  console_log : writer;    (* console.log *)
  console_error : writer   (* console.error *)
}.

Definition native_hooks : output_hooks := mkHooks Native Native Native Native.
Definition patched_hooks : output_hooks :=
  mkHooks Patched Patched Patched Patched.

(** Where the completion callback of mochaInstance.run stands: not yet
    called, or suspended at [await resetAllCollections()] with the failure
    count it was given. *)
Inductive phase : Type :=
  | Executing
  | Cleaning (failureCount : jsval).

(** The locals of one activation of runDaemonTests that its closures (the
    interceptors, the heartbeat, the completion callback) share. *)
Record run_ctx : Type := mkCtx {
  rc_res : conn;
  rc_previousSnapshotUpdate : option string;
  rc_useJsonReporter : bool;
  rc_jsonBuffer : string;
  rc_originals : output_hooks;
  rc_heartbeat : bool;
  rc_phase : phase
}.

Definition ctx_set_jsonBuffer (b : string) (c : run_ctx) : run_ctx :=
  mkCtx (rc_res c) (rc_previousSnapshotUpdate c) (rc_useJsonReporter c) b
        (rc_originals c) (rc_heartbeat c) (rc_phase c).

Definition ctx_set_heartbeat (h : bool) (c : run_ctx) : run_ctx :=
  mkCtx (rc_res c) (rc_previousSnapshotUpdate c) (rc_useJsonReporter c)
        (rc_jsonBuffer c) (rc_originals c) h (rc_phase c).

Definition ctx_set_phase (p : phase) (c : run_ctx) : run_ctx :=
  mkCtx (rc_res c) (rc_previousSnapshotUpdate c) (rc_useJsonReporter c)
        (rc_jsonBuffer c) (rc_originals c) (rc_heartbeat c) p.

(** The part of mochaInstance the daemon programs. *)
Record mocha : Type := mkMocha {
  m_suite : Suite;
  m_grep : string;
  m_invert : bool;
  m_bail : bool;
  m_color : bool;
  m_reporter : string;
  m_output : option string;
  m_resets : nat;    (* calls of suite.reset() *)
  m_runs : nat       (* calls of run() *)
}.

Module Mocha.
Definition reset (m : mocha) : mocha :=
  mkMocha (m_suite m) (m_grep m) (m_invert m) (m_bail m) (m_color m)
          (m_reporter m) (m_output m) (S (m_resets m)) (m_runs m).
Definition grep (re : string) (m : mocha) : mocha :=
  mkMocha (m_suite m) re (m_invert m) (m_bail m) (m_color m)
          (m_reporter m) (m_output m) (m_resets m) (m_runs m).
Definition set_invert (b : bool) (m : mocha) : mocha :=
  mkMocha (m_suite m) (m_grep m) b (m_bail m) (m_color m)
          (m_reporter m) (m_output m) (m_resets m) (m_runs m).
Definition bail (b : bool) (m : mocha) : mocha :=
  mkMocha (m_suite m) (m_grep m) (m_invert m) b (m_color m)
          (m_reporter m) (m_output m) (m_resets m) (m_runs m).
Definition color (b : bool) (m : mocha) : mocha :=
  mkMocha (m_suite m) (m_grep m) (m_invert m) (m_bail m) b
          (m_reporter m) (m_output m) (m_resets m) (m_runs m).
Definition reporter (name : string) (output : option string) (m : mocha)
    : mocha :=
  mkMocha (m_suite m) (m_grep m) (m_invert m) (m_bail m) (m_color m)
          name output (m_resets m) (m_runs m).
Definition run (m : mocha) : mocha :=
  mkMocha (m_suite m) (m_grep m) (m_invert m) (m_bail m) (m_color m)
          (m_reporter m) (m_output m) (m_resets m) (S (m_runs m)).
End Mocha.

(** The module-level variables of server.js in daemon mode, the process
    objects the daemon patches, the closures it has registered, and what
    it has sent to the outside. *)
Record daemon : Type := mkDaemon {
  daemonTestsRunning : bool;
  clientDisconnected : bool;
  shuttingDown : bool;
  activeConnections : gset conn;
  env : gmap string string;            (* process.env *)
  mochaInstance : mocha;
  hooks : output_hooks;
  closeListeners : list conn;          (* res.on('close', ...) *)
  inflight : option run_ctx;
  wire : list (conn * call);           (* calls on response objects *)
  stdout : list string;                (* chunks given to the real stdout *)
  stderr : list string;                (* chunks given to the real stderr *)
  console : list string                (* lines of the original console *)
}.

Definition set_daemonTestsRunning (v : bool) (s : daemon) : daemon :=
  mkDaemon v (clientDisconnected s) (shuttingDown s) (activeConnections s)
    (env s) (mochaInstance s) (hooks s) (closeListeners s) (inflight s)
    (wire s) (stdout s) (stderr s) (console s).
Definition set_clientDisconnected (v : bool) (s : daemon) : daemon :=
  mkDaemon (daemonTestsRunning s) v (shuttingDown s) (activeConnections s)
    (env s) (mochaInstance s) (hooks s) (closeListeners s) (inflight s)
    (wire s) (stdout s) (stderr s) (console s).
Definition set_shuttingDown (v : bool) (s : daemon) : daemon :=
  mkDaemon (daemonTestsRunning s) (clientDisconnected s) v
    (activeConnections s) (env s) (mochaInstance s) (hooks s)
    (closeListeners s) (inflight s) (wire s) (stdout s) (stderr s)
    (console s).
Definition set_activeConnections (v : gset conn) (s : daemon) : daemon :=
  mkDaemon (daemonTestsRunning s) (clientDisconnected s) (shuttingDown s) v
    (env s) (mochaInstance s) (hooks s) (closeListeners s) (inflight s)
    (wire s) (stdout s) (stderr s) (console s).
Definition set_env (v : gmap string string) (s : daemon) : daemon :=
  mkDaemon (daemonTestsRunning s) (clientDisconnected s) (shuttingDown s)
    (activeConnections s) v (mochaInstance s) (hooks s) (closeListeners s)
    (inflight s) (wire s) (stdout s) (stderr s) (console s).
Definition set_mochaInstance (v : mocha) (s : daemon) : daemon :=
  mkDaemon (daemonTestsRunning s) (clientDisconnected s) (shuttingDown s)
    (activeConnections s) (env s) v (hooks s) (closeListeners s)
    (inflight s) (wire s) (stdout s) (stderr s) (console s).
Definition set_hooks (v : output_hooks) (s : daemon) : daemon :=
  mkDaemon (daemonTestsRunning s) (clientDisconnected s) (shuttingDown s)
    (activeConnections s) (env s) (mochaInstance s) v (closeListeners s)
    (inflight s) (wire s) (stdout s) (stderr s) (console s).
Definition set_closeListeners (v : list conn) (s : daemon) : daemon :=
  mkDaemon (daemonTestsRunning s) (clientDisconnected s) (shuttingDown s)
    (activeConnections s) (env s) (mochaInstance s) (hooks s) v
    (inflight s) (wire s) (stdout s) (stderr s) (console s).
Definition set_inflight (v : option run_ctx) (s : daemon) : daemon :=
  mkDaemon (daemonTestsRunning s) (clientDisconnected s) (shuttingDown s)
    (activeConnections s) (env s) (mochaInstance s) (hooks s)
    (closeListeners s) v (wire s) (stdout s) (stderr s) (console s).
Definition set_wire (v : list (conn * call)) (s : daemon) : daemon :=
  mkDaemon (daemonTestsRunning s) (clientDisconnected s) (shuttingDown s)
    (activeConnections s) (env s) (mochaInstance s) (hooks s)
    (closeListeners s) (inflight s) v (stdout s) (stderr s) (console s).
Definition set_stdout (v : list string) (s : daemon) : daemon :=
  mkDaemon (daemonTestsRunning s) (clientDisconnected s) (shuttingDown s)
    (activeConnections s) (env s) (mochaInstance s) (hooks s)
    (closeListeners s) (inflight s) (wire s) v (stderr s) (console s).
Definition set_stderr (v : list string) (s : daemon) : daemon :=
  mkDaemon (daemonTestsRunning s) (clientDisconnected s) (shuttingDown s)
    (activeConnections s) (env s) (mochaInstance s) (hooks s)
    (closeListeners s) (inflight s) (wire s) (stdout s) v (console s).
Definition set_console (v : list string) (s : daemon) : daemon :=
  mkDaemon (daemonTestsRunning s) (clientDisconnected s) (shuttingDown s)
    (activeConnections s) (env s) (mochaInstance s) (hooks s)
    (closeListeners s) (inflight s) (wire s) (stdout s) (stderr s) v.

(** ** The state monad of the handlers *)

Definition M (A : Type) : Type := daemon → A * daemon.

Global Instance M_ret : MRet M := λ A x s, (x, s).
Global Instance M_bind : MBind M := λ A B f m s, f (m s).1 (m s).2.

Definition gets {A : Type} (f : daemon → A) : M A := λ s, (f s, s).
Definition modify (f : daemon → daemon) : M unit := λ s, ((), f s).
Definition exec {A : Type} (m : M A) (s : daemon) : daemon := (m s).2.
Definition when (b : bool) (m : M unit) : M unit := if b then m else mret ().

Fixpoint for_each {A : Type} (l : list A) (f : A → M unit) : M unit :=
  match l with
  | [] => mret ()
  | x :: l' => f x ;; for_each l' f
  end.

(** ** Primitive effects *)

(** [res.writeHead], [res.write], [res.end].  A Node response queues what
    it is given and reports a vanished peer through events, not by
    throwing, so the calls are recorded and return. *)
Definition res_writeHead (res : conn) (status : nat) (ctype : string)
    : M unit :=
  modify (λ s, set_wire (wire s ++ [(res, WriteHead status ctype)]) s).
Definition res_write (res : conn) (e : event) : M unit :=
  modify (λ s, set_wire (wire s ++ [(res, Write e)]) s).
Definition res_end (res : conn) : M unit :=
  modify (λ s, set_wire (wire s ++ [(res, End)]) s).

(** The functions captured as originalStdoutWrite, originalStderrWrite,
    originalLog and originalError. *)
Definition originalStdoutWrite (chunk : string) : M unit :=
  modify (λ s, set_stdout (stdout s ++ [chunk]) s).
Definition originalStderrWrite (chunk : string) : M unit :=
  modify (λ s, set_stderr (stderr s ++ [chunk]) s).
Definition originalLog (line : string) : M unit :=
  modify (λ s, set_console (console s ++ [line]) s).
Definition originalError (line : string) : M unit :=
  modify (λ s, set_console (console s ++ [line]) s).

Definition sendLog (res : conn) (data : string) : M unit :=
  res_write res (EvLog data).
Definition sendError (res : conn) (data : string) : M unit :=
  res_write res (EvError data).

Definition update_inflight (f : run_ctx → run_ctx) : M unit :=
  modify (λ s, set_inflight (f <$> inflight s) s).

(** A call of [process.stdout.write(chunk)], dispatched on the function
    the property holds. *)
Definition process_stdout_write (chunk : string) : M unit :=
  h ← gets hooks;
  c ← gets inflight;
  match stdout_write h, c with
  | Patched, Some ctx =>
      (if rc_useJsonReporter ctx
       then update_inflight
              (λ c, ctx_set_jsonBuffer (rc_jsonBuffer c +:+ chunk) c)
       else sendLog (rc_res ctx) (Js.stripTrailingNewline chunk)) ;;
      originalStdoutWrite chunk
  | _, _ => originalStdoutWrite chunk
  end.

(** A call of [process.stderr.write(chunk)]. *)
Definition process_stderr_write (chunk : string) : M unit :=
  h ← gets hooks;
  c ← gets inflight;
  match stderr_write h, c with
  | Patched, Some ctx =>
      sendError (rc_res ctx) (Js.stripTrailingNewline chunk) ;;
      originalStderrWrite chunk
  | _, _ => originalStderrWrite chunk
  end.

(** A call of [console.log] or [console.error].  The property holds the
    original or the interceptor of runDaemonTests, which joins its
    arguments into a line it does not use and applies the original to the
    same arguments: either way the line reaches the original console. *)
Definition console_log_call (line : string) : M unit := originalLog line.
Definition console_error_call (line : string) : M unit := originalError line.

Definition nl : string := String "010" "".

(** What start() reads from the runtime arguments, and Meteor.isAppTest. *)
Record config : Type := mkConfig {
  serverReporter : option string;
  serverOutput : option string;
  isAppTest : bool
}.

Section Daemon.

Context (cfg : config).

Definition headerLines (type : string) : list string :=
  [ nl +:+ "--------------------------------";
    if isAppTest cfg
    then "--- RUNNING APP " +:+ type +:+ " TESTS ---"
    else "----- RUNNING " +:+ type +:+ " TESTS -----";
    "--------------------------------" +:+ nl ].

(** printHeader for a type other than CLIENT, the only use in daemon
    mode. *)
Definition printHeader (type : string) : M unit :=
  for_each (headerLines type) console_log_call.

(** *** Shutdown Coordinator *)

(** The closure [shutdown] of setupShutdownHandlers. *)
Definition shutdown (signal : string) : M unit :=
  sd ← gets shuttingDown;
  if sd : bool then mret ()
  else
    modify (set_shuttingDown true) ;;
    console_log_call
      ("[daemon] Received " +:+ signal +:+ ", notifying clients...") ;;
    conns ← gets (λ s, elements (activeConnections s));
    for_each conns (λ res,
      res_write res (EvShutdown signal) ;; res_end res) ;;
    modify (set_activeConnections ∅).

(** process.on('SIGTERM', ...) and process.on('SIGINT', ...). *)
Definition on_signal (name : string) : M unit :=
  if String.eqb name "SIGTERM" then shutdown "SIGTERM"
  else if String.eqb name "SIGINT" then shutdown "SIGINT"
  else mret ().

(** *** Run Coordinator *)

Record run_options : Type := mkOptions {
  opt_reporter : string;
  opt_snapshotUpdate : bool;
  opt_bail : bool
}.

Definition SNAPSHOT_UPDATE : string := "SNAPSHOT_UPDATE".

(** runDaemonTests, up to and including the call of mochaInstance.run;
    the callback given to the runner is [runCallback] below. *)
Definition runDaemonTests (grepPattern : string) (invert : bool)
    (res : conn) (options : run_options) : M unit :=
  running ← gets daemonTestsRunning;
  if running : bool then
    res_write res
      (EvError "Tests already running - wait or restart daemon") ;;
    res_end res
  else
    sd ← gets shuttingDown;
    if sd : bool then
      res_write res (EvShutdown "Server is shutting down") ;;
      res_end res
    else
      modify (set_daemonTestsRunning true) ;;
      modify (set_clientDisconnected false) ;;
      modify (λ s, set_activeConnections ({[res]} ∪ activeConnections s) s) ;;
      previousSnapshotUpdate ← gets (λ s, env s !! SNAPSHOT_UPDATE);
      when (opt_snapshotUpdate options)
        (modify (λ s, set_env (<[SNAPSHOT_UPDATE := "1"]> (env s)) s)) ;;
      modify (λ s, set_closeListeners (closeListeners s ++ [res]) s) ;;
      modify (λ s, set_mochaInstance (Mocha.reset (mochaInstance s)) s) ;;
      modify (λ s, set_mochaInstance
        (Mocha.grep (if Js.truthy grepPattern then grepPattern else "")
                    (mochaInstance s)) s) ;;
      modify (λ s, set_mochaInstance
        (Mocha.set_invert invert (mochaInstance s)) s) ;;
      modify (λ s, set_mochaInstance
        (Mocha.bail (opt_bail options) (mochaInstance s)) s) ;;
      let useJsonReporter := String.eqb (opt_reporter options) "json" in
      modify (λ s, set_mochaInstance
        (Mocha.color (negb useJsonReporter) (mochaInstance s)) s) ;;
      modify (λ s, set_mochaInstance
        (Mocha.reporter
           (if useJsonReporter then "json"
            else Js.or_str (serverReporter cfg) "spec")
           (serverOutput cfg) (mochaInstance s)) s) ;;
      originals ← gets hooks;
      modify (set_inflight (Some
        (mkCtx res previousSnapshotUpdate useJsonReporter "" originals
               false Executing))) ;;
      modify (set_hooks patched_hooks) ;;
      when (negb useJsonReporter) (printHeader "SERVER") ;;
      update_inflight (ctx_set_heartbeat true) ;;
      modify (λ s, set_mochaInstance (Mocha.run (mochaInstance s)) s).

(** The interval callback installed by setInterval. *)
Definition heartbeatTick : M unit :=
  c ← gets inflight;
  match c with
  | Some ctx =>
      when (rc_heartbeat ctx) (res_write (rc_res ctx) EvHeartbeat)
  | None => mret ()
  end.

(** The listener registered by [res.on('close', ...)]. *)
Definition closeListener : M unit :=
  running ← gets daemonTestsRunning;
  when running
    (console_log_call "[daemon] Client disconnected while tests running" ;;
     modify (set_clientDisconnected true)).

(** A 'close' event on [res] runs every listener registered on it. *)
Definition on_close (res : conn) : M unit :=
  ls ← gets closeListeners;
  for_each (filter (λ r, r = res) ls) (λ _, closeListener).

(** The completion callback, from its entry to the suspension at
    [await resetAllCollections()].  The runner calls it once per run: a
    call that finds no run waiting for it does nothing. *)
Definition runCallback (failureCount : jsval) : M unit :=
  c ← gets inflight;
  match c with
  | Some ctx =>
      match rc_phase ctx with
      | Executing =>
          update_inflight (ctx_set_heartbeat false) ;;
          update_inflight (ctx_set_phase (Cleaning failureCount))
      | Cleaning _ => mret ()
      end
  | None => mret ()
  end.

(** The completion callback resumed: [cleanupError] is the message of the
    error resetAllCollections threw, if it threw.  What resetAllCollections
    does to the database is not part of the daemon's state. *)
Definition runCallbackResume (cleanupError : option string) : M unit :=
  c ← gets inflight;
  match c with
  | Some ctx =>
      match rc_phase ctx with
      | Executing => mret ()
      | Cleaning failureCount =>
          match cleanupError with
          | Some message =>
              console_error_call
                ("[daemon] Failed to reset collections: " +:+ message)
          | None => mret ()
          end ;;
          modify (set_hooks (rc_originals ctx)) ;;
          match rc_previousSnapshotUpdate ctx with
          | Some previous =>
              modify (λ s, set_env (<[SNAPSHOT_UPDATE := previous]> (env s)) s)
          | None =>
              modify (λ s, set_env (delete SNAPSHOT_UPDATE (env s)) s)
          end ;;
          modify (set_daemonTestsRunning false) ;;
          modify (λ s, set_activeConnections
                         (activeConnections s ∖ {[rc_res ctx]}) s) ;;
          disconnected ← gets clientDisconnected;
          (if disconnected : bool then
             console_log_call
               ("[daemon] Tests completed (" +:+ to_display failureCount
                +:+ " failures) but client already disconnected")
           else
             when (rc_useJsonReporter ctx && Js.truthy (rc_jsonBuffer ctx))
               (res_write (rc_res ctx)
                  (EvJson (Js.trim (rc_jsonBuffer ctx)))) ;;
             res_write (rc_res ctx) (EvDone failureCount) ;;
             res_end (rc_res ctx)) ;;
          modify (set_inflight None)
      end
  | None => mret ()
  end.

(** *** The /test/run endpoint *)

(** The query parameters as [url.searchParams.get] returns them. *)
Record query : Type := mkQuery {
  q_grep : option string;
  q_file : option string;
  q_invert : option string;
  q_reporter : option string;
  q_snapshotUpdate : option string;
  q_bail : option string
}.

(** [param === '1'] *)
Definition is_one (param : option string) : bool :=
  match param with Some v => String.eqb v "1" | None => false end.

(** [parts.pop()] of a split, which is never empty. *)
Definition pop (parts : list string) : string := List.last parts "".

(** The handler mounted on /test/run. *)
Definition handleRun (q : query) (res : conn) : M unit :=
  let grepPattern := Js.or_str (q_grep q) "" in
  let filePattern := Js.or_str (q_file q) "" in
  let invert := is_one (q_invert q) in
  let reporter := Js.or_str (q_reporter q) "spec" in
  let snapshotUpdate := is_one (q_snapshotUpdate q) in
  let bail := is_one (q_bail q) in
  let options := mkOptions reporter snapshotUpdate bail in
  res_writeHead res 200 "text/event-stream" ;;
  if Js.truthy filePattern then
    fileSuites ← gets (λ s,
      findSuitesForFile (m_suite (mochaInstance s)) filePattern);
    if length fileSuites =? 0 then
      res_write res
        (EvError ("No tests found for file: " +:+ filePattern)) ;;
      res_write res (EvDone (JNum 1)) ;;
      res_end res
    else
      let fileGrep := "^(" +:+ Js.join "|" fileSuites +:+ ")" in
      let effectiveGrep :=
        if Js.truthy grepPattern
        then "(?=" +:+ fileGrep +:+ ")(?=.*" +:+ grepPattern +:+ ")"
        else fileGrep in
      let filename := pop (Js.split_slash filePattern) in
      let description :=
        if Js.truthy grepPattern
        then filename +:+ " (" +:+ grepPattern +:+ ")"
        else filename in
      res_write res (EvStart description invert) ;;
      runDaemonTests effectiveGrep invert res options
  else
    let effectiveGrep := grepPattern in
    let description :=
      if Js.truthy grepPattern then grepPattern else "all tests" in
    res_write res (EvStart description invert) ;;
    runDaemonTests effectiveGrep invert res options.

(** *** The daemon as a transition system *)

(** What can happen to the daemon once its endpoints are set up. *)
Inductive input : Type :=
  | RunRequest (q : query) (res : conn)   (* GET /test/run *)
  | StdoutWrite (chunk : string)          (* process.stdout.write(chunk) *)
  | StderrWrite (chunk : string)          (* process.stderr.write(chunk) *)
  | ConsoleLog (line : string)            (* console.log(line) *)
  | ConsoleError (line : string)          (* console.error(line) *)
  | HeartbeatTick                         (* the 10 s interval fires *)
  | ConnectionClosed (res : conn)         (* 'close' on a response *)
  | Signal (name : string)                (* a process signal *)
  | RunnerDone (failureCount : jsval)     (* the runner calls back *)
  | CleanupSettled (error : option string).
                                          (* resetAllCollections settles *)

Definition handle (i : input) : M unit :=
  match i with
  | RunRequest q res => handleRun q res
  | StdoutWrite chunk => process_stdout_write chunk
  | StderrWrite chunk => process_stderr_write chunk
  | ConsoleLog line => console_log_call line
  | ConsoleError line => console_error_call line
  | HeartbeatTick => heartbeatTick
  | ConnectionClosed res => on_close res
  | Signal name => on_signal name
  | RunnerDone failureCount => runCallback failureCount
  | CleanupSettled error => runCallbackResume error
  end.

Definition step (i : input) (s : daemon) : daemon := exec (handle i) s.

Definition run_inputs (ins : list input) (s : daemon) : daemon :=
  foldl (λ s i, step i s) s ins.

(** The inputs that leave a run in progress: everything but the two
    stages of the completion callback. *)
Definition keeps_running (i : input) : bool :=
  match i with
  | RunnerDone _ | CleanupSettled _ => false
  | _ => true
  end.

(** The inputs other than the end of the cleanup, after which the
    completion callback finishes the run. *)
Definition not_settled (i : input) : bool :=
  match i with
  | CleanupSettled _ => false
  | _ => true
  end.

(** The daemon when setupDaemonEndpoints returns. *)
Definition readyBanner : list string :=
  [ nl +:+ "========================================";
    "  TEST DAEMON READY";
    "  Health: http://localhost:9100/test/health";
    "  Files:  http://localhost:9100/test/files";
    "  Run:    ./scripts/test-run [grep|file]";
    "========================================" +:+ nl ].

Definition initial (env0 : gmap string string) (m0 : mocha) : daemon :=
  mkDaemon false false false ∅ env0 m0 native_hooks [] None [] [] []
           readyBanner.

Inductive reachable : daemon → Prop :=
  | reachable_initial env0 m0 : reachable (initial env0 m0)
  | reachable_step i s : reachable s → reachable (step i s).
End Daemon.

(** ** The /test/health endpoint *)



(** ** The one-shot path's treatment of the runner's result *)

Module OneShot.

(** The callback serverTests gives to mochaInstance.run: the lines it
    logs itself and the count it hands to exitIfDone('server', _). *)
Definition serverTestsCallback (failureCount : jsval)
    : list string * jsval :=
  if negb (typeof_number failureCount) then
    (["Mocha did not return a failure count for server tests as expected"],
     JNum 1)
  else ([], failureCount).

End OneShot.

(** ** Tests at startup *)

(** Without TEST_DAEMON, start() runs the server tests and the client
    tests once, in series or in parallel, and the process exits when both
    have reported.  The module-level variables of that path, the runner,
    and what the process has done to the outside form one record; the
    functions take it and return it.  The runner, the browser driver, the
    coverage handler and the other processes answer later: their answers
    are the inputs of a second transition system. *)
Module Startup.

(** What start() reads from the runtime arguments.  The runner options
    are used for their truthiness only. *)
Record arguments : Type := mkArguments {
  base : config;
  runServer : bool;
  runClient : bool;
  browserDriver : bool;
  testWatch : bool;
  runParallel : bool;
  grep : option string;
  invert : bool;
  clientReporter : option string;
  clientOutput : option string
}.

(** An argument of a call of console.log. *)
Inductive logged : Type :=
  | LStr (s : string)
  | LNum (n : nat)
  | LArr (items : list string)
  | LObj (shown : string).

Record process : Type := mkProcess {
  serverTestsDone : bool;
  clientTestsRunning : bool;
  clientLines : list string;
  callCount : nat;
  clientFailures : Z;
  serverFailures : Z;
  runner : mocha;                        (* mochaInstance *)
  printed : list (list logged);          (* calls of console.log *)
  appended : list (string * string);     (* calls of fs.appendFileSync *)
  browsersStarted : nat;                 (* calls of startBrowser *)
  browsersDone : nat;                    (* calls of its done callback *)
  awaited : option bool;
    (* the callback given to mochaInstance.run, until it is called, and
       whether serverTests was given a cb *)
  coverage : nat;                        (* handleCoverage promises pending *)
  exited : option Z                      (* process.exit(code) *)
}.

Definition set_serverTestsDone (v : bool) (p : process) : process :=
  mkProcess v (clientTestsRunning p) (clientLines p) (callCount p)
    (clientFailures p) (serverFailures p) (runner p) (printed p)
    (appended p) (browsersStarted p) (browsersDone p) (awaited p)
    (coverage p) (exited p).
Definition set_clientTestsRunning (v : bool) (p : process) : process :=
  mkProcess (serverTestsDone p) v (clientLines p) (callCount p)
    (clientFailures p) (serverFailures p) (runner p) (printed p)
    (appended p) (browsersStarted p) (browsersDone p) (awaited p)
    (coverage p) (exited p).
Definition set_clientLines (v : list string) (p : process) : process :=
  mkProcess (serverTestsDone p) (clientTestsRunning p) v (callCount p)
    (clientFailures p) (serverFailures p) (runner p) (printed p)
    (appended p) (browsersStarted p) (browsersDone p) (awaited p)
    (coverage p) (exited p).
Definition set_callCount (v : nat) (p : process) : process :=
  mkProcess (serverTestsDone p) (clientTestsRunning p) (clientLines p) v
    (clientFailures p) (serverFailures p) (runner p) (printed p)
    (appended p) (browsersStarted p) (browsersDone p) (awaited p)
    (coverage p) (exited p).
Definition set_clientFailures (v : Z) (p : process) : process :=
  mkProcess (serverTestsDone p) (clientTestsRunning p) (clientLines p)
    (callCount p) v (serverFailures p) (runner p) (printed p)
    (appended p) (browsersStarted p) (browsersDone p) (awaited p)
    (coverage p) (exited p).
Definition set_serverFailures (v : Z) (p : process) : process :=
  mkProcess (serverTestsDone p) (clientTestsRunning p) (clientLines p)
    (callCount p) (clientFailures p) v (runner p) (printed p)
    (appended p) (browsersStarted p) (browsersDone p) (awaited p)
    (coverage p) (exited p).
Definition set_runner (v : mocha) (p : process) : process :=
  mkProcess (serverTestsDone p) (clientTestsRunning p) (clientLines p)
    (callCount p) (clientFailures p) (serverFailures p) v (printed p)
    (appended p) (browsersStarted p) (browsersDone p) (awaited p)
    (coverage p) (exited p).
Definition set_printed (v : list (list logged)) (p : process) : process :=
  mkProcess (serverTestsDone p) (clientTestsRunning p) (clientLines p)
    (callCount p) (clientFailures p) (serverFailures p) (runner p) v
    (appended p) (browsersStarted p) (browsersDone p) (awaited p)
    (coverage p) (exited p).
Definition set_appended (v : list (string * string)) (p : process)
    : process :=
  mkProcess (serverTestsDone p) (clientTestsRunning p) (clientLines p)
    (callCount p) (clientFailures p) (serverFailures p) (runner p)
    (printed p) v (browsersStarted p) (browsersDone p) (awaited p)
    (coverage p) (exited p).
Definition set_browsersStarted (v : nat) (p : process) : process :=
  mkProcess (serverTestsDone p) (clientTestsRunning p) (clientLines p)
    (callCount p) (clientFailures p) (serverFailures p) (runner p)
    (printed p) (appended p) v (browsersDone p) (awaited p)
    (coverage p) (exited p).
Definition set_browsersDone (v : nat) (p : process) : process :=
  mkProcess (serverTestsDone p) (clientTestsRunning p) (clientLines p)
    (callCount p) (clientFailures p) (serverFailures p) (runner p)
    (printed p) (appended p) (browsersStarted p) v (awaited p)
    (coverage p) (exited p).
Definition set_awaited (v : option bool) (p : process) : process :=
  mkProcess (serverTestsDone p) (clientTestsRunning p) (clientLines p)
    (callCount p) (clientFailures p) (serverFailures p) (runner p)
    (printed p) (appended p) (browsersStarted p) (browsersDone p) v
    (coverage p) (exited p).
Definition set_coverage (v : nat) (p : process) : process :=
  mkProcess (serverTestsDone p) (clientTestsRunning p) (clientLines p)
    (callCount p) (clientFailures p) (serverFailures p) (runner p)
    (printed p) (appended p) (browsersStarted p) (browsersDone p)
    (awaited p) v (exited p).
Definition set_exited (v : option Z) (p : process) : process :=
  mkProcess (serverTestsDone p) (clientTestsRunning p) (clientLines p)
    (callCount p) (clientFailures p) (serverFailures p) (runner p)
    (printed p) (appended p) (browsersStarted p) (browsersDone p)
    (awaited p) (coverage p) v.

(** [console.log(...args)] *)
Definition log (args : list logged) (p : process) : process :=
  set_printed (printed p ++ [args]) p.

Section Functions.

Context (a : arguments).

(** clientLogBuffer *)
Definition clientLogBuffer (line : string) (p : process) : process :=
  if serverTestsDone p then log [LStr line] p
  else set_clientLines (clientLines p ++ [line]) p.

(** printHeader *)
Definition printHeader (type : string) (p : process) : process :=
  foldl (λ p line,
           if String.eqb type "CLIENT" then clientLogBuffer line p
           else log [LStr line] p)
        p (headerLines (base a) type).

(** [clientLines.forEach(console.log)]: forEach calls its callback with
    the element, its index and the array. *)
Definition flushClientLines (p : process) : process :=
  foldl (λ p entry, log [LStr entry.2; LNum entry.1; LArr (clientLines p)] p)
        p (imap pair (clientLines p)).

(** The summary exitIfDone prints when both kinds of tests ran. *)
Definition summary (p : process) : list string :=
  let app := if isAppTest (base a) then "APP " else "" in
  [ "All tests finished!" +:+ nl;
    "--------------------------------";
    app +:+ "SERVER FAILURES: " +:+ pretty (serverFailures p);
    app +:+ "CLIENT FAILURES: " +:+ pretty (clientFailures p);
    "--------------------------------" ].

(** exitIfDone.  The call of handleCoverage leaves a promise pending; the
    function given to its [then] is [coverageHandled] below. *)
Definition exitIfDone (type : string) (failures : Z) (p : process)
    : process :=
  let p1 := set_callCount (S (callCount p)) p in
  let p2 :=
    if String.eqb type "client" then set_clientFailures failures p1
    else flushClientLines
           (set_serverTestsDone true (set_serverFailures failures p1)) in
  if callCount p2 =? 2 then
    let p3 :=
      if runServer a && runClient a && browserDriver a
      then foldl (λ p line, log [LStr line] p) p2 (summary p2)
      else p2 in
    set_coverage (S (coverage p3)) p3
  else p2.

(** The function given to [handleCoverage(...).then]. *)
Definition coverageHandled (p : process) : process :=
  if negb (testWatch a) then
    if (0 <? clientFailures p + serverFailures p)%Z
    then set_exited (Some 1%Z) p
    else set_exited (Some 0%Z) p
  else p.

(** isXunitLine *)
Definition isXunitLine (line : string) : bool :=
  match Js.trimStart line with
  | String c _ => Ascii.eqb c "<"
  | "" => false
  end.

(** browserOutput *)
Definition browserOutput (data : string) (p : process) : process :=
  let line := Js.stripTrailingNewline data in
  match clientOutput a with
  | Some path =>
      if Js.truthy path then
        if negb (bool_decide (clientReporter a = Some "xunit"))
           || isXunitLine line
        then set_appended (appended p ++ [(path, line +:+ nl)]) p
        else clientLogBuffer line p
      else clientLogBuffer line p
  | None => clientLogBuffer line p
  end.

(** The [done] given to startBrowser. *)
Definition browserDone (failureCount : jsval) (p : process) : process :=
  let p1 := set_clientTestsRunning false p in
  match failureCount with
  | JNum n => exitIfDone "client" n p1
  | _ =>
      exitIfDone "client" 1
        (log [LStr ("The browser driver package did not return a failure "
                    +:+ "count for server tests as expected")] p1)
  end.

(** clientTests *)
Definition clientTests (p : process) : process :=
  if clientTestsRunning p then log [LStr "CLIENT TESTS ALREADY RUNNING"] p
  else if negb (runClient a) then
    exitIfDone "client" 0
      (log [LStr "SKIPPING CLIENT TESTS BECAUSE TEST_CLIENT=0"] p)
  else if negb (browserDriver a) then
    exitIfDone "client" 0
      (log [LStr ("Load the app in a browser to run client tests, or set "
                  +:+ "the TEST_BROWSER_DRIVER environment variable. "
                  +:+ "See https://github.com/meteortesting/meteor-mocha/"
                  +:+ "blob/master/README.md#run-app-tests")] p)
  else
    set_browsersStarted (S (browsersStarted p))
      (set_clientTestsRunning true (printHeader "CLIENT" p)).

(** The callback serverTests gives to mochaInstance.run; [cb] says
    whether serverTests was given one, which is then clientTests. *)
Definition serverTestsCallback (failureCount : jsval) (cb : bool)
    (p : process) : process :=
  let p1 :=
    match failureCount with
    | JNum n => exitIfDone "server" n p
    | _ =>
        exitIfDone "server" 1
          (log [LStr ("Mocha did not return a failure count for server "
                      +:+ "tests as expected")] p)
    end in
  if cb then clientTests p1 else p1.

(** serverTests *)
Definition serverTests (cb : bool) (p : process) : process :=
  if negb (runServer a) then
    let p1 :=
      exitIfDone "server" 0
        (log [LStr "SKIPPING SERVER TESTS BECAUSE TEST_SERVER=0"] p) in
    if cb then clientTests p1 else p1
  else
    let p1 := printHeader "SERVER" p in
    let m1 :=
      match grep a with
      | Some g => if Js.truthy g then Mocha.grep g (runner p1) else runner p1
      | None => runner p1
      end in
    let m2 := if invert a then Mocha.set_invert true m1 else m1 in
    let m3 := Mocha.color true m2 in
    let m4 :=
      Mocha.reporter (Js.or_str (serverReporter (base a)) "spec")
                     (serverOutput (base a)) m3 in
    set_awaited (Some cb) (set_runner (Mocha.run m4) p1).

(** start, without TEST_DAEMON. *)
Definition start (p : process) : process :=
  if runParallel a then
    clientTests
      (serverTests false
         (log [LStr ("Warning: Running in parallel can cause side-effects "
                     +:+ "from state/db sharing")] p))
  else serverTests true p.

(** The handlers of the messages client-refresh and
    webapp-reload-client. *)
Definition restartClient (message : string) (options : option logged)
    (p : process) : process :=
  clientTests
    (log [ LStr ("CLIENT TESTS RESTARTING (" +:+ message +:+ ")");
           match options with Some o => o | None => LStr "" end ] p).

(** What can happen to the process after start() has returned. *)
Inductive trigger : Type :=
  | ServerRunnerDone (failureCount : jsval)   (* the runner calls back *)
  | BrowserOutput (data : string)             (* stdout, writebuffer, stderr *)
  | BrowserDone (failureCount : jsval)        (* the driver calls done *)
  | CoverageHandled                           (* the promise is fulfilled *)
  | ClientRefresh (options : option logged)
  | WebappReloadClient (options : option logged).

(** A callback runs if the process has not exited and the call that
    registered it has been made. *)
Definition react (t : trigger) (p : process) : process :=
  match exited p with
  | Some _ => p
  | None =>
      match t with
      | ServerRunnerDone failureCount =>
          match awaited p with
          | Some cb => serverTestsCallback failureCount cb (set_awaited None p)
          | None => p
          end
      | BrowserOutput data =>
          if 0 <? browsersStarted p then browserOutput data p else p
      | BrowserDone failureCount =>
          if browsersDone p <? browsersStarted p
          then browserDone failureCount
                 (set_browsersDone (S (browsersDone p)) p)
          else p
      | CoverageHandled =>
          if 0 <? coverage p
          then coverageHandled (set_coverage (pred (coverage p)) p)
          else p
      | ClientRefresh options => restartClient "client-refresh" options p
      | WebappReloadClient options =>
          restartClient "webapp-reload-client" options p
      end
  end.

Definition run (ts : list trigger) (p : process) : process :=
  foldl (λ p t, react t p) p ts.

End Functions.

(** The process when the module has been loaded. *)
Definition loaded (m0 : mocha) : process :=
  mkProcess false false [] 0 0 0 m0 [] [] 0 0 None 0 None.

(** *** Vocabulary *)


(** The exit status for the failures counted so far. *)
Definition verdict (p : process) : Z :=
  if (0 <? clientFailures p + serverFailures p)%Z then 1%Z else 0%Z.

(** What exitIfDone does apart from printing. *)
Definition tally (type : string) (failures : Z) (p : process) : process :=
  let p1 := set_callCount (S (callCount p)) p in
  let p2 :=
    if String.eqb type "client" then set_clientFailures failures p1
    else set_serverTestsDone true (set_serverFailures failures p1) in
  if S (callCount p) =? 2 then set_coverage (S (coverage p2)) p2 else p2.

(** What flushing the buffered lines prints. *)
Definition flushed (lines : list string) : list (list logged) :=
  imap (λ index line, [LStr line; LNum index; LArr lines]) lines.

(** The browser started last is the only one that may be running, the
    coverage handler is called when exitIfDone has been called twice, and
    the process exits after that, with the verdict on the failures
    counted, unless it watches. *)
Definition orderly (a : arguments) (p : process) : Prop :=
  browsersStarted p =
    browsersDone p + (if clientTestsRunning p then 1 else 0)
  ∧ (0 < coverage p → 2 ≤ callCount p)
  ∧ match exited p with
    | Some code =>
        testWatch a = false ∧ 2 ≤ callCount p ∧ code = verdict p
    | None => True
    end.

(** [p'] is [p] but for what has been printed and buffered. *)
Definition but_for_prints (p p' : process) : Prop :=
  ∃ pr cl, p' = set_printed pr (set_clientLines cl p).



(** The process without what it has printed, buffered and appended. *)
Definition silent (p : process) : process :=
  set_appended [] (set_printed [] (set_clientLines [] p)).

(** The answers other than the browser's output. *)
Definition not_output (t : trigger) : bool :=
  match t with BrowserOutput _ => false | _ => true end.

(** The lines of the browser's output that browserOutput appends to the
    output file. *)
Definition goes_to_file (a : arguments) (line : string) : bool :=
  match clientOutput a with
  | Some path =>
      Js.truthy path &&
      (negb (bool_decide (clientReporter a = Some "xunit"))
       || isXunitLine line)
  | None => false
  end.


(** What browserOutput appends to the output file for a line. *)
Definition file_entry (a : arguments) (line : string)
    : list (string * string) :=
  match clientOutput a with
  | Some path => if goes_to_file a line then [(path, line +:+ nl)] else []
  | None => []
  end.

End Startup.

(** ** Vocabulary of the statements *)

(** The state in which runDaemonTests leaves an idle daemon. *)
Definition started (cfg : config) (grepPattern : string) (invert : bool)
    (res : conn) (options : run_options) (s : daemon) : daemon :=
  let useJsonReporter := String.eqb (opt_reporter options) "json" in
  mkDaemon true false (shuttingDown s) ({[res]} ∪ activeConnections s)
    (if opt_snapshotUpdate options
     then <[SNAPSHOT_UPDATE := "1"]> (env s) else env s)
    (Mocha.run
       (Mocha.reporter
          (if useJsonReporter then "json"
           else Js.or_str (serverReporter cfg) "spec")
          (serverOutput cfg)
          (Mocha.color (negb useJsonReporter)
             (Mocha.bail (opt_bail options)
                (Mocha.set_invert invert
                   (Mocha.grep
                      (if Js.truthy grepPattern then grepPattern else "")
                      (Mocha.reset (mochaInstance s))))))))
    patched_hooks
    (closeListeners s ++ [res])
    (Some (mkCtx res (env s !! SNAPSHOT_UPDATE) useJsonReporter ""
                 (hooks s) true Executing))
    (wire s) (stdout s) (stderr s)
    (if useJsonReporter then console s
     else console s ++ headerLines cfg "SERVER").

(** The two calls with which the entry guard turns a request away. *)
Definition turned_away (res : conn) (e : event) : list (conn * call) :=
  [(res, Write e); (res, End)].

Definition already_running : event :=
  EvError "Tests already running - wait or restart daemon".
Definition shutting_down_notice : event :=
  EvShutdown "Server is shutting down".

(** The calls a shutdown broadcast makes on the registered connections. *)
Definition broadcast (signal : string) (conns : list conn)
    : list (conn * call) :=
  flat_map (λ r, turned_away r (EvShutdown signal)) conns.

(** The module-level flags, the patched functions and the closure of the
    run in flight agree. *)
Definition coherent (s : daemon) : Prop :=
  match inflight s with
  | Some ctx =>
      daemonTestsRunning s = true ∧ hooks s = patched_hooks ∧
      rc_originals ctx = native_hooks ∧
      activeConnections s ⊆ {[rc_res ctx]}
  | None =>
      daemonTestsRunning s = false ∧ hooks s = native_hooks ∧
      activeConnections s = ∅
  end.

(** The chunk an input writes to standard output. *)
Definition stdout_chunk (i : input) : string :=
  match i with StdoutWrite chunk => chunk | _ => "" end.


(** The completion callback's phase after an input that is not the end of
    the cleanup. *)
Definition next_phase (i : input) (p : phase) : phase :=
  match i, p with
  | RunnerDone failureCount, Executing => Cleaning failureCount
  | _, _ => p
  end.



(** The metacharacters of the escaping rule. *)
Definition metacharacters : list ascii :=
  ["."; "*"; "+"; "?"; "^"; "$"; "{"; "}"; "("; ")"; "|"; "["; "]"; "\"]%char.

(** The escaping rule, character by character: a metacharacter is
    prefixed with a backslash, any other character is left as it is. *)
Inductive Escaped : string → string → Prop :=
  | Escaped_empty : Escaped "" ""
  | Escaped_meta c r r' :
      c ∈ metacharacters → Escaped r r' →
      Escaped (String c r) (String "\" (String c r'))
  | Escaped_plain c r r' :
      c ∉ metacharacters → Escaped r r' →
      Escaped (String c r) (String c r').


(** The anchor built from the escaped titles of a file's suites. *)
Definition anchor (titles : list string) : string :=
  "^(" +:+ Js.join "|" titles +:+ ")".

(** Every suite of a tree, with the tree's root first. *)
Fixpoint all_suites (suite : Suite) : list Suite :=
  suite :: concat (map all_suites (s_suites suite)).

(** What the /test/run handler passes on as options. *)
Definition options_of (q : query) : run_options :=
  mkOptions (Js.or_str (q_reporter q) "spec") (is_one (q_snapshotUpdate q))
            (is_one (q_bail q)).

(** The calls with which the /test/run handler answers a file pattern that
    finds no suite. *)
Definition no_tests_found (res : conn) (filePattern : string)
    : list (conn * call) :=
  [ (res, WriteHead 200 "text/event-stream");
    (res, Write (EvError ("No tests found for file: " +:+ filePattern)));
    (res, Write (EvDone (JNum 1)));
    (res, End) ].

(** The calls that precede the handler's call of runDaemonTests. *)
Definition announced (res : conn) (description : string) (invert : bool)
    : list (conn * call) :=
  [ (res, WriteHead 200 "text/event-stream");
    (res, Write (EvStart description invert)) ].

(** The effective grep and the description the handler resolves a query
    to, or [None] when its file pattern finds no suite. *)
Definition resolution (root : Suite) (q : query) : option (string * string) :=
  let grepPattern := Js.or_str (q_grep q) "" in
  let filePattern := Js.or_str (q_file q) "" in
  if Js.truthy filePattern then
    let fileSuites := findSuitesForFile root filePattern in
    if length fileSuites =? 0 then None
    else
      let filename := pop (Js.split_slash filePattern) in
      Some (if Js.truthy grepPattern
            then "(?=" +:+ anchor fileSuites +:+
                 ")(?=.*" +:+ grepPattern +:+ ")"
            else anchor fileSuites,
            if Js.truthy grepPattern
            then filename +:+ " (" +:+ grepPattern +:+ ")"
            else filename)
  else
    Some (grepPattern, if Js.truthy grepPattern then grepPattern else "all tests").

(** The calls with which the completion callback ends a run whose peer is
    still connected. *)
Definition terminal (ctx : run_ctx) (failureCount : jsval)
    : list (conn * call) :=
  (if rc_useJsonReporter ctx && Js.truthy (rc_jsonBuffer ctx)
   then [(rc_res ctx, Write (EvJson (Js.trim (rc_jsonBuffer ctx))))]
   else []) ++
  [(rc_res ctx, Write (EvDone failureCount)); (rc_res ctx, End)].

(** The closure of the run in flight after an input that leaves the run
    in progress. *)
Definition ctx_after (i : input) (heartbeat : bool) (ctx : run_ctx)
    : run_ctx :=
  mkCtx (rc_res ctx) (rc_previousSnapshotUpdate ctx) (rc_useJsonReporter ctx)
        (if rc_useJsonReporter ctx
         then rc_jsonBuffer ctx +:+ stdout_chunk i
         else rc_jsonBuffer ctx)
        (rc_originals ctx) heartbeat (next_phase i (rc_phase ctx)).

(** No call of the list writes a log event. *)
Definition no_log (w : list (conn * call)) : Prop :=
  Forall (λ c, is_log c.2 = false) w.

(** One input that leaves the run of [ctx] in progress takes [s] to [s']:
    the closure follows the input, calls are only appended (none of them a
    log event under the JSON reporter), and the environment and the runner
    are left alone. *)
Definition run_continues (i : input) (ctx : run_ctx) (s s' : daemon) : Prop :=
  ∃ added heartbeat,
    inflight s' = Some (ctx_after i heartbeat ctx) ∧
    wire s' = wire s ++ added ∧
    (rc_useJsonReporter ctx = true → no_log added) ∧
    env s' = env s ∧
    mochaInstance s' = mochaInstance s ∧
    coherent s'.

(** The completion callback's phase after a sequence of inputs. *)
Definition phase_after (ins : list input) (p : phase) : phase :=
  foldl (λ p i, next_phase i p) p ins.




(** [c] is one of the characters of [s]. *)
Fixpoint occurs (c : ascii) (s : string) : bool :=
  match s with
  | "" => false
  | String d r => Ascii.eqb d c || occurs c r
  end.

(** The alternatives of a regular-expression source without groups: the
    source is cut at every bar that is not escaped by a backslash. *)
Fixpoint alternatives (src : string) : list string :=
  match src with
  | "" => [""]
  | String c r =>
      if Js.is_backslash c then
        match r with
        | String d r' =>
            match alternatives r' with
            | alt :: alts => String c (String d alt) :: alts
            | [] => [String c (String d "")]
            end
        | "" => [String c ""]
        end
      else if Ascii.eqb c "|" then "" :: alternatives r
      else match alternatives r with
           | alt :: alts => String c alt :: alts
           | [] => [String c ""]
           end
  end.

(** Every suite of a tree in the order the walkers visit them, each with
    the file the walkers resolve for it: its own, or else the one resolved
    for its parent. *)
Fixpoint visited (suite : Suite) (parentFile : option string)
    : list (option string * Suite) :=
  let file := Js.or_else (s_file suite) parentFile in
  (file, suite) :: concat (map (λ child, visited child file) (s_suites suite)).

(** A visited suite that has a title and is resolved to [file]. *)
Definition titled_in (file : string) (v : option string * Suite) : bool :=
  bool_decide (v.1 = Some file) && Js.truthy file && Js.truthy (s_title v.2).

(** The full titles of the titled suites of [file], in visiting order. *)
Definition titles_of_file (root : Suite) (file : string) : list string :=
  flat_map (λ v, if titled_in file v then [s_fullTitle v.2] else [])
           (visited root None).

(** A visited suite that has a title and whose file the pattern matches. *)
Definition selected (normalizedPattern : string) (v : option string * Suite)
    : bool :=
  match v.1 with
  | Some f =>
      Js.truthy f && pathMatchesPattern (normalizePath f) normalizedPattern
      && Js.truthy (s_title v.2)
  | None => false
  end.

(** The entry of a file after [titles] have been pushed onto it: pushing
    nothing leaves the entry as it is, also when there is none. *)
Definition pushed_onto (entry : option (list string)) (titles : list string)
    : option (list string) :=
  match titles with
  | [] => entry
  | _ :: _ => Some (default [] entry ++ titles)
  end.










(** ** A small daemon to run *)

Module Sample.

Definition cfg : config := mkConfig None None false.

Definition registry : Suite :=
  mkSuite "" None ""
    [ mkSuite "A" (Some "x/a.spec.ts") "A"
        [ mkSuite "inner" None "A inner" [] ];
      mkSuite "B" (Some "/x/b.spec.ts") "B (b)" [] ].

Definition mocha0 : mocha :=
  mkMocha registry "" false false true "spec" None 0 0.

Definition ready : daemon := initial ∅ mocha0.

Definition json : query :=
  mkQuery None None None (Some "json") None None.
Definition by_file (file : string) (grep : option string) : query :=
  mkQuery grep (Some file) None None None None.


End Sample.

(** * Properties *)

(** ** Path Matcher *)

Section PathMatcher.

Implicit Types fs ps pre post : list string.

Lemma segmentsMatchFrom_true fs ps start i n :
  segmentsMatchFrom fs ps start i n = true ↔
  ∀ j, i ≤ j < i + n → fs !! (start + j) = ps !! j.
Proof.
  revert i. induction n as [|n IH]; intros i; simpl.
  - split; [intros _ j Hj; lia | done].
  - case_bool_decide as Heq.
    + rewrite IH. split.
      * intros H j Hj. destruct (decide (j = i)) as [->|]; [done|].
        apply H. lia.
      * intros H j Hj. apply H. lia.
    + split; [done|]. intros H. destruct Heq. apply H. lia.
Qed.

Lemma occurs_at_lookup fs ps k :
  occurs_at ps fs k ↔ ∀ j, j < length ps → fs !! (k + j) = ps !! j.
Proof.
  unfold occurs_at. split.
  - intros H j Hj. rewrite <- H at 1.
    rewrite lookup_take_lt by done. by rewrite lookup_drop.
  - intros H. apply list_eq. intros j.
    destruct (decide (j < length ps)) as [Hlt|Hge].
    + rewrite lookup_take_lt by done. rewrite lookup_drop. by apply H.
    + rewrite lookup_take_ge by lia. symmetry. apply lookup_ge_None. lia.
Qed.

Lemma searchFrom_true fs ps start n :
  searchFrom fs ps start n = true ↔
  ∃ k, start ≤ k < start + n ∧ occurs_at ps fs k.
Proof.
  revert start. induction n as [|n IH]; intros start; simpl.
  - split; [done | intros (k & Hk & _); lia].
  - destruct (segmentsMatchFrom fs ps start 0 (length ps)) eqn:Hm.
    + split; [intros _ | done]. exists start. split; [lia|].
      apply occurs_at_lookup. intros j Hj.
      apply (proj1 (segmentsMatchFrom_true _ _ _ _ _) Hm). lia.
    + rewrite IH. split.
      * intros (k & Hk & Hocc). exists k. split; [lia | done].
      * intros (k & Hk & Hocc). exists k. split; [|done].
        destruct (decide (k = start)) as [->|]; [|lia].
        exfalso. rewrite <- not_true_iff_false in Hm. apply Hm.
        apply segmentsMatchFrom_true. intros j Hj.
        apply (proj1 (occurs_at_lookup _ _ _) Hocc). lia.
Qed.

Lemma contiguous_run_occurs ps fs :
  contiguous_run ps fs ↔
  ∃ k, k + length ps ≤ length fs ∧ occurs_at ps fs k.
Proof.
  unfold contiguous_run, occurs_at. split.
  - intros (pre & post & ->). exists (length pre). split.
    + rewrite !length_app. lia.
    + rewrite drop_app_length. by rewrite take_app_length.
  - intros (k & Hk & Hocc). exists (take k fs), (drop (length ps) (drop k fs)).
    rewrite <- Hocc at 1. by rewrite !take_drop.
Qed.

Lemma split_slash_nonempty s : Js.split_slash s ≠ [].
Proof.
  induction s as [|c r IH]; simpl; [done|].
  destruct (Js.is_slash c); [done|]. by destruct (Js.split_slash r).
Qed.

Lemma segments_length_pos path : 0 < length (segments path).
Proof.
  unfold segments. pose proof (split_slash_nonempty (Js.stripTrailingSlashes path)).
  destruct (Js.split_slash _); [done | simpl; lia].
Qed.

End PathMatcher.

(** C3.  pathMatchesPattern returns true exactly when the pattern's
    segments (trailing slashes stripped, split on the slash) occur as a
    contiguous run of whole segments in the file's segments; it returns
    false when the pattern has more segments than the file; "abc/def"
    matches "x/abc/def/file.ts" and matches neither "x/abc/defg/file.ts"
    nor "x/abcd/def/file.ts". *)
Theorem pathMatchesPattern_whole_segments (f p : string) :
  (pathMatchesPattern f p = true ↔ contiguous_run (segments p) (segments f))
  ∧ (length (segments f) < length (segments p) →
     pathMatchesPattern f p = false)
  ∧ pathMatchesPattern "x/abc/def/file.ts" "abc/def" = true
  ∧ pathMatchesPattern "x/abc/defg/file.ts" "abc/def" = false
  ∧ pathMatchesPattern "x/abcd/def/file.ts" "abc/def" = false.
Proof.
  split; [|split; [|by vm_compute]].
  - unfold pathMatchesPattern. rewrite contiguous_run_occurs.
    destruct (Nat.ltb_spec (length (segments f)) (length (segments p)))
      as [Hlt|Hle].
    + split; [done|]. intros (k & Hk & _). lia.
    + rewrite searchFrom_true. split.
      * intros (k & Hk & Hocc). exists k. split; [lia | done].
      * intros (k & Hk & Hocc). exists k. split; [lia | done].
  - intros Hlt. unfold pathMatchesPattern.
    by destruct (Nat.ltb_spec (length (segments f)) (length (segments p)));
      [|lia].
Qed.

Lemma pathMatchesPattern_whole_segments_witness :
  pathMatchesPattern "file.ts" "abc/file.ts" = false.
Proof.
  apply (proj1 (proj2 (pathMatchesPattern_whole_segments
                         "file.ts" "abc/file.ts"))).
  vm_compute. lia.
Defined.

(** ** Escaping *)

Section Escaping.

Lemma isRegexSpecial_elem c :
  isRegexSpecial c = true ↔ c ∈ metacharacters.
Proof.
  unfold isRegexSpecial, metacharacters. rewrite existsb_exists.
  split.
  - intros (d & Hd & Heq). apply Ascii.eqb_eq in Heq. subst d.
    by apply list_elem_of_In.
  - intros Hc. exists c. split; [by apply list_elem_of_In|].
    apply Ascii.eqb_refl.
Qed.

Lemma escapeRegex_meta c r :
  c ∈ metacharacters →
  escapeRegex (String c r) = String "\" (String c (escapeRegex r)).
Proof.
  intros Hc. apply isRegexSpecial_elem in Hc.
  unfold escapeRegex. simpl. by rewrite Hc.
Qed.

Lemma escapeRegex_plain c r :
  c ∉ metacharacters →
  escapeRegex (String c r) = String c (escapeRegex r).
Proof.
  intros Hc. rewrite <- isRegexSpecial_elem in Hc.
  apply not_true_is_false in Hc.
  unfold escapeRegex. simpl. by rewrite Hc.
Qed.

Lemma escapeRegex_Escaped s : Escaped s (escapeRegex s).
Proof.
  induction s as [|c r IH]; [constructor|].
  destruct (decide (c ∈ metacharacters)) as [Hc|Hc].
  - rewrite escapeRegex_meta by done. by constructor.
  - rewrite escapeRegex_plain by done. by constructor.
Qed.

Lemma Escaped_escapeRegex s t : Escaped s t → t = escapeRegex s.
Proof.
  induction 1 as [|c r r' Hc _ IH|c r r' Hc _ IH]; [done| |].
  - rewrite escapeRegex_meta by done. by rewrite IH.
  - rewrite escapeRegex_plain by done. by rewrite IH.
Qed.

Lemma backslash_meta : "\"%char ∈ metacharacters.
Proof. apply isRegexSpecial_elem. reflexivity. Qed.

Lemma literal_of_escapeRegex s : literal_of_pattern (escapeRegex s) = Some s.
Proof.
  induction s as [|c r IH]; [done|].
  destruct (decide (c ∈ metacharacters)) as [Hc|Hc].
  - rewrite escapeRegex_meta by done. simpl.
    apply isRegexSpecial_elem in Hc. by rewrite Hc, IH.
  - rewrite escapeRegex_plain by done. simpl.
    assert (Js.is_backslash c = false) as ->.
    { apply not_true_is_false. intros Hb. apply Hc.
      apply Ascii.eqb_eq in Hb. subst c. apply backslash_meta. }
    rewrite <- isRegexSpecial_elem in Hc. apply not_true_is_false in Hc.
    by rewrite Hc, IH.
Qed.

End Escaping.

(** C6.  escapeRegex prefixes exactly the characters . * + ? ^ $ { } ( ) |
    [ ] \ with a backslash and leaves every other character as it is (the
    result is the one string the escaping rule allows), and the escaped
    string, read as a regular expression, is the literal for the original
    string: every metacharacter in it is escaped and the literal it spells
    is the original. *)
Theorem escapeRegex_round_trip (s : string) :
  Escaped s (escapeRegex s)
  ∧ (∀ t, Escaped s t → t = escapeRegex s)
  ∧ literal_of_pattern (escapeRegex s) = Some s.
Proof.
  split; [apply escapeRegex_Escaped|].
  split; [apply Escaped_escapeRegex | apply literal_of_escapeRegex].
Qed.

Lemma escapeRegex_round_trip_witness :
  "a\.b\(c\)" = escapeRegex "a.b(c)".
Proof.
  apply (proj1 (proj2 (escapeRegex_round_trip "a.b(c)"))).
  repeat first
    [ apply Escaped_empty
    | apply Escaped_meta; [apply (bool_decide_unpack _); by vm_compute|]
    | apply Escaped_plain; [apply (bool_decide_unpack _); by vm_compute|] ].
Defined.

(** ** Running the handlers *)

(** Replaces a state by its fields, so that every projection computes. *)
Ltac open_state s :=
  destruct s;
  cbn [daemonTestsRunning clientDisconnected shuttingDown activeConnections
       env mochaInstance hooks closeListeners inflight wire stdout stderr
       console] in *;
  subst.

(** Reduces the projections of states built with the setters. *)
Ltac state_simpl :=
  cbn [set_daemonTestsRunning set_clientDisconnected set_shuttingDown
       set_activeConnections set_env set_mochaInstance set_hooks
       set_closeListeners set_inflight set_wire set_stdout set_stderr
       set_console
       daemonTestsRunning clientDisconnected shuttingDown activeConnections
       env mochaInstance hooks closeListeners inflight wire stdout stderr
       console].

Ltac open_ctx c :=
  destruct c;
  cbn [rc_res rc_previousSnapshotUpdate rc_useJsonReporter rc_jsonBuffer
       rc_originals rc_heartbeat rc_phase] in *;
  subst.

(** Runs the handlers of the goal on opened states. *)
Ltac mrun :=
  cbv beta iota zeta delta
    [exec handle step handleRun runDaemonTests process_stdout_write
     process_stderr_write console_log_call console_error_call
     heartbeatTick closeListener runCallback runCallbackResume
     shutdown on_signal on_close
     res_write res_end res_writeHead sendLog sendError
     originalStdoutWrite originalStderrWrite originalLog originalError
     update_inflight printHeader when headerLines for_each
     mbind M_bind mret M_ret gets modify fst snd
     fmap option_fmap option_map negb andb
     set_daemonTestsRunning set_clientDisconnected set_shuttingDown
     set_activeConnections set_env set_mochaInstance set_hooks
     set_closeListeners set_inflight set_wire set_stdout set_stderr
     set_console
     daemonTestsRunning clientDisconnected shuttingDown activeConnections
     env mochaInstance hooks closeListeners inflight wire stdout stderr
     console
     ctx_set_jsonBuffer ctx_set_heartbeat ctx_set_phase
     rc_res rc_previousSnapshotUpdate rc_useJsonReporter rc_jsonBuffer
     rc_originals rc_heartbeat rc_phase
     stdout_write stderr_write console_log console_error patched_hooks
     native_hooks
     started turned_away announced no_tests_found terminal options_of
     ctx_after];
  rewrite <- ?app_assoc.

Section Execution.

Context (cfg : config).

Lemma set_wire_id s : set_wire (wire s) s = s.
Proof. by destruct s. Qed.

Lemma runDaemonTests_running g inv res opts s :
  daemonTestsRunning s = true →
  exec (runDaemonTests cfg g inv res opts) s =
  set_wire (wire s ++ turned_away res already_running) s.
Proof. intros H. open_state s. by mrun. Qed.

Lemma runDaemonTests_shutting_down g inv res opts s :
  daemonTestsRunning s = false → shuttingDown s = true →
  exec (runDaemonTests cfg g inv res opts) s =
  set_wire (wire s ++ turned_away res shutting_down_notice) s.
Proof. intros H1 H2. open_state s. by mrun. Qed.

Lemma runDaemonTests_started g inv res opts s :
  daemonTestsRunning s = false → shuttingDown s = false →
  exec (runDaemonTests cfg g inv res opts) s = started cfg g inv res opts s.
Proof.
  intros H1 H2. open_state s.
  destruct opts as [reporter [] bail];
    destruct (String.eqb reporter "json") eqn:Hjson;
    mrun; cbn [opt_reporter opt_snapshotUpdate opt_bail];
    rewrite Hjson; by mrun.
Qed.

Lemma handleRun_resolution q res s :
  exec (handleRun cfg q res) s =
  match resolution (m_suite (mochaInstance s)) q with
  | None =>
      set_wire (wire s ++ no_tests_found res (Js.or_str (q_file q) "")) s
  | Some (effectiveGrep, description) =>
      exec (runDaemonTests cfg effectiveGrep (is_one (q_invert q)) res
              (options_of q))
           (set_wire (wire s ++
                      announced res description (is_one (q_invert q))) s)
  end.
Proof.
  unfold resolution, exec, handleRun.
  cbv beta iota zeta delta
    [mbind M_bind mret M_ret gets modify fst snd res_writeHead res_write
     res_end].
  cbn [mochaInstance set_wire wire].
  destruct (Js.truthy (Js.or_str (q_file q) "")).
  - destruct (length (findSuitesForFile _ _) =? 0).
    + open_state s. by mrun.
    + destruct (Js.truthy (Js.or_str (q_grep q) ""));
        unfold announced, options_of, anchor; open_state s; state_simpl;
        by rewrite <- ?app_assoc.
  - unfold announced, options_of; open_state s; state_simpl;
      by rewrite <- ?app_assoc.
Qed.

(** *** Loops *)

Lemma for_each_broadcast signal (f : conn → M unit) conns s :
  (∀ r s', f r s' =
           ((), set_wire (wire s' ++ turned_away r (EvShutdown signal)) s')) →
  for_each conns f s =
  ((), set_wire (wire s ++ broadcast signal conns) s).
Proof.
  intros Hf. revert s. induction conns as [|r conns IH]; intros s.
  - cbn. unfold mret, M_ret. by rewrite app_nil_r, set_wire_id.
  - cbn [for_each]. unfold mbind at 1, M_bind at 1. rewrite IH, Hf.
    open_state s. by mrun.
Qed.

Lemma for_each_closeListener {A : Type} (l : list A) s :
  ∃ lines disconnected,
    exec (for_each l (λ _, closeListener)) s =
    set_clientDisconnected disconnected
      (set_console (console s ++ lines) s).
Proof.
  revert s. induction l as [|x l IH]; intros s.
  - exists [], (clientDisconnected s). cbn. rewrite app_nil_r.
    by destruct s.
  - unfold exec in *. cbn [for_each]. unfold mbind at 1, M_bind at 1.
    destruct (IH ((closeListener s).2)) as (lines & d & ->).
    open_state s. destruct daemonTestsRunning0.
    + eexists (_ :: lines), d. by mrun.
    + exists lines, d. by mrun.
Qed.

(** *** The shutdown handler *)

Lemma shutdown_latched signal s :
  shuttingDown s = true → exec (shutdown signal) s = s.
Proof. intros H. open_state s. by mrun. Qed.

Lemma shutdown_first signal s :
  shuttingDown s = false →
  exec (shutdown signal) s =
  set_activeConnections ∅
    (set_wire (wire s ++ broadcast signal (elements (activeConnections s)))
       (set_console
          (console s ++
           ["[daemon] Received " +:+ signal +:+ ", notifying clients..."])
          (set_shuttingDown true s))).
Proof.
  intros H. unfold exec, shutdown.
  cbv beta iota zeta delta [mbind M_bind mret M_ret gets modify fst snd].
  rewrite H, (for_each_broadcast signal) by (intros ? []; by mrun).
  open_state s. by mrun.
Qed.

Lemma on_signal_cases name s :
  exec (on_signal name) s = s ∨
  ∃ signal, exec (on_signal name) s = exec (shutdown signal) s.
Proof.
  unfold on_signal.
  destruct (String.eqb name "SIGTERM"); [right; eauto|].
  destruct (String.eqb name "SIGINT"); [right; eauto|].
  by left.
Qed.

(** *** The output interceptors *)

Lemma stdout_write_patched chunk ctx s :
  stdout_write (hooks s) = Patched → inflight s = Some ctx →
  exec (process_stdout_write chunk) s =
  set_stdout (stdout s ++ [chunk])
    (if rc_useJsonReporter ctx
     then set_inflight
            (Some (ctx_set_jsonBuffer (rc_jsonBuffer ctx +:+ chunk) ctx)) s
     else set_wire
            (wire s ++
             [(rc_res ctx, Write (EvLog (Js.stripTrailingNewline chunk)))])
            s).
Proof.
  intros Hh Hc. open_state s. destruct hooks0. open_ctx ctx.
  cbn in Hh. subst. destruct rc_useJsonReporter0; by mrun.
Qed.

Lemma stderr_write_patched chunk ctx s :
  stderr_write (hooks s) = Patched → inflight s = Some ctx →
  exec (process_stderr_write chunk) s =
  set_stderr (stderr s ++ [chunk])
    (set_wire
       (wire s ++
        [(rc_res ctx, Write (EvError (Js.stripTrailingNewline chunk)))])
       s).
Proof.
  intros Hh Hc. open_state s. destruct hooks0. open_ctx ctx.
  cbn in Hh. subst. by mrun.
Qed.

Lemma stdout_write_idle chunk s :
  inflight s = None →
  exec (process_stdout_write chunk) s = set_stdout (stdout s ++ [chunk]) s.
Proof. intros Hc. open_state s. destruct hooks0 as [[] ? ? ?]; by mrun. Qed.

Lemma stderr_write_idle chunk s :
  inflight s = None →
  exec (process_stderr_write chunk) s = set_stderr (stderr s ++ [chunk]) s.
Proof. intros Hc. open_state s. destruct hooks0 as [? [] ? ?]; by mrun. Qed.

Lemma console_log_appends line s :
  exec (console_log_call line) s = set_console (console s ++ [line]) s.
Proof. reflexivity. Qed.

Lemma console_error_appends line s :
  exec (console_error_call line) s = set_console (console s ++ [line]) s.
Proof. reflexivity. Qed.

Lemma heartbeatTick_running ctx s :
  inflight s = Some ctx →
  exec heartbeatTick s =
  if rc_heartbeat ctx
  then set_wire (wire s ++ [(rc_res ctx, Write EvHeartbeat)]) s
  else s.
Proof. intros Hc. open_state s. open_ctx ctx. destruct rc_heartbeat0; by mrun. Qed.

Lemma heartbeatTick_idle s : inflight s = None → exec heartbeatTick s = s.
Proof. intros Hc. open_state s. by mrun. Qed.

Lemma on_close_effect res s :
  ∃ lines disconnected,
    exec (on_close res) s =
    set_clientDisconnected disconnected
      (set_console (console s ++ lines) s).
Proof.
  destruct (for_each_closeListener
              (filter (λ r, r = res) (closeListeners s)) s)
    as (lines & d & H).
  exists lines, d. by rewrite <- H.
Qed.

(** *** The completion callback *)

Lemma runCallback_executing failureCount ctx s :
  inflight s = Some ctx → rc_phase ctx = Executing →
  exec (runCallback failureCount) s =
  set_inflight
    (Some (ctx_set_phase (Cleaning failureCount)
             (ctx_set_heartbeat false ctx))) s.
Proof. intros Hc Hp. open_state s. open_ctx ctx. by mrun. Qed.

Lemma runCallback_cleaning failureCount fc ctx s :
  inflight s = Some ctx → rc_phase ctx = Cleaning fc →
  exec (runCallback failureCount) s = s.
Proof. intros Hc Hp. open_state s. open_ctx ctx. by mrun. Qed.

Lemma runCallback_idle failureCount s :
  inflight s = None → exec (runCallback failureCount) s = s.
Proof. intros Hc. open_state s. by mrun. Qed.

Lemma runCallbackResume_cleaning error fc ctx s :
  inflight s = Some ctx → rc_phase ctx = Cleaning fc →
  exec (runCallbackResume error) s =
  mkDaemon false (clientDisconnected s) (shuttingDown s)
    (activeConnections s ∖ {[rc_res ctx]})
    (match rc_previousSnapshotUpdate ctx with
     | Some previous => <[SNAPSHOT_UPDATE := previous]> (env s)
     | None => delete SNAPSHOT_UPDATE (env s)
     end)
    (mochaInstance s) (rc_originals ctx) (closeListeners s) None
    (if clientDisconnected s then wire s else wire s ++ terminal ctx fc)
    (stdout s) (stderr s)
    ((console s ++
      match error with
      | Some message =>
          ["[daemon] Failed to reset collections: " +:+ message]
      | None => []
      end) ++
     if clientDisconnected s
     then ["[daemon] Tests completed (" +:+ to_display fc
           +:+ " failures) but client already disconnected"]
     else []).
Proof.
  intros Hc Hp. open_state s. open_ctx ctx.
  destruct error as [message|], rc_previousSnapshotUpdate0 as [previous|],
    clientDisconnected0, rc_useJsonReporter0,
    (Js.truthy rc_jsonBuffer0) eqn:Hbuf;
    mrun; rewrite ?Hbuf; mrun; by rewrite ?app_nil_r.
Qed.

Lemma runCallbackResume_executing error ctx s :
  inflight s = Some ctx → rc_phase ctx = Executing →
  exec (runCallbackResume error) s = s.
Proof. intros Hc Hp. open_state s. open_ctx ctx. by mrun. Qed.

Lemma runCallbackResume_idle error s :
  inflight s = None → exec (runCallbackResume error) s = s.
Proof. intros Hc. open_state s. by mrun. Qed.

(** *** The flags, the hooks and the closure stay in step *)

Lemma no_log_broadcast signal conns : no_log (broadcast signal conns).
Proof.
  unfold no_log, broadcast. induction conns as [|r conns IH]; cbn.
  - constructor.
  - by repeat constructor.
Qed.

Lemma string_app_empty_r (a : string) : a +:+ "" = a.
Proof.
  induction a as [|x a IH]; [done|].
  change (String x (a +:+ "") = String x a). by rewrite IH.
Qed.

Lemma string_app_assoc (a b c : string) :
  a +:+ b +:+ c = (a +:+ b) +:+ c.
Proof.
  induction a as [|x a IH]; [done|].
  change (String x (a +:+ b +:+ c) = String x ((a +:+ b) +:+ c)).
  by rewrite IH.
Qed.

Lemma ctx_after_unchanged i ctx :
  stdout_chunk i = "" → next_phase i (rc_phase ctx) = rc_phase ctx →
  ctx_after i (rc_heartbeat ctx) ctx = ctx.
Proof.
  intros Hchunk Hphase. unfold ctx_after. rewrite Hchunk, Hphase.
  rewrite string_app_empty_r. destruct ctx; cbn.
  by destruct rc_useJsonReporter0.
Qed.

Lemma coherent_initial env0 m0 : coherent (initial env0 m0).
Proof. by unfold coherent. Qed.

Lemma coherent_frame s s' :
  inflight s' = inflight s → daemonTestsRunning s' = daemonTestsRunning s →
  hooks s' = hooks s → activeConnections s' ⊆ activeConnections s →
  coherent s → coherent s'.
Proof.
  unfold coherent. intros -> -> -> Hsub.
  destruct (inflight s); intros H; destruct_and!; split_and!; try done.
  - set_solver.
  - set_solver.
Qed.

Lemma coherent_started g inv res opts s :
  coherent s → inflight s = None →
  coherent (started cfg g inv res opts s).
Proof.
  unfold coherent. intros H Hc. rewrite Hc in H. cbn.
  destruct H as (Hrun & Hhooks & Hconns). split_and!; try done.
  by rewrite Hconns, (right_id_L ∅ (∪)).
Qed.


(** *** One input during a run *)

Lemma no_log_cons c w : is_log c.2 = false → no_log w → no_log (c :: w).
Proof. intros. by constructor. Qed.

Lemma no_log_nil : no_log [].
Proof. constructor. Qed.

Lemma step_in_run i ctx s :
  coherent s → inflight s = Some ctx → not_settled i = true →
  run_continues i ctx s (step cfg i s).
Proof.
  intros Hco Hc Hi. pose proof Hco as Hco'.
  unfold coherent in Hco'. rewrite Hc in Hco'.
  destruct Hco' as (Hrun & Hhooks & Horig & Hconns).
  assert (∀ s', inflight s' = inflight s →
                daemonTestsRunning s' = daemonTestsRunning s →
                hooks s' = hooks s →
                activeConnections s' ⊆ activeConnections s →
                coherent s') as Hframe.
  { intros s' ? ? ? ?. by eapply coherent_frame. }
  assert (stdout_chunk i = "" →
          next_phase i (rc_phase ctx) = rc_phase ctx →
          Some ctx = Some (ctx_after i (rc_heartbeat ctx) ctx)) as Hsame.
  { intros ? ?. by rewrite ctx_after_unchanged. }
  unfold run_continues, step.
  destruct i as [q res|chunk|chunk|line|line| |res|name|fc|e];
    try discriminate Hi; cbn [handle].
  - (* RunRequest *)
    rewrite handleRun_resolution.
    destruct (resolution _ q) as [[g d]|].
    + rewrite runDaemonTests_running by done.
      eexists _, (rc_heartbeat ctx). state_simpl. rewrite <- app_assoc.
      split_and!; [rewrite Hc; by apply Hsame|reflexivity| |done|done|
                   by apply Hframe].
      intros _. by repeat apply no_log_cons; try apply no_log_nil.
    + eexists _, (rc_heartbeat ctx). state_simpl.
      split_and!; [rewrite Hc; by apply Hsame|reflexivity| |done|done|
                   by apply Hframe].
      intros _. by repeat apply no_log_cons; try apply no_log_nil.
  - (* StdoutWrite *)
    rewrite (stdout_write_patched chunk ctx) by (by rewrite ?Hhooks).
    destruct (rc_useJsonReporter ctx) eqn:Hjson.
    + exists [], (rc_heartbeat ctx). state_simpl. rewrite app_nil_r.
      split_and!; [|done|intros _; apply no_log_nil|done|done|].
      * unfold ctx_after, ctx_set_jsonBuffer. by rewrite Hjson.
      * unfold coherent. state_simpl. by rewrite Hrun, Hhooks.
    + eexists _, (rc_heartbeat ctx). state_simpl.
      split_and!; [|reflexivity|done|done|done|by apply Hframe].
      rewrite Hc. unfold ctx_after. rewrite Hjson.
      destruct ctx; cbn in Hjson |- *; by subst.
  - (* StderrWrite *)
    rewrite (stderr_write_patched chunk ctx) by (by rewrite ?Hhooks).
    eexists _, (rc_heartbeat ctx). state_simpl.
    split_and!; [rewrite Hc; by apply Hsame|reflexivity| |done|done|
                 by apply Hframe].
    intros _. by repeat apply no_log_cons; try apply no_log_nil.
  - (* ConsoleLog *)
    rewrite console_log_appends. exists [], (rc_heartbeat ctx).
    state_simpl. rewrite app_nil_r.
    split_and!; [rewrite Hc; by apply Hsame|done|intros _; apply no_log_nil
                |done|done|by apply Hframe].
  - (* ConsoleError *)
    rewrite console_error_appends. exists [], (rc_heartbeat ctx).
    state_simpl. rewrite app_nil_r.
    split_and!; [rewrite Hc; by apply Hsame|done|intros _; apply no_log_nil
                |done|done|by apply Hframe].
  - (* HeartbeatTick *)
    rewrite (heartbeatTick_running ctx) by done.
    destruct (rc_heartbeat ctx) eqn:Hhb.
    + eexists _, true. state_simpl.
      split_and!; [rewrite Hc; by apply Hsame|reflexivity| |done
                  |done|by apply Hframe].
      intros _. by repeat apply no_log_cons; try apply no_log_nil.
    + exists [], false. rewrite app_nil_r.
      split_and!; [rewrite Hc; by apply Hsame|done
                  |intros _; apply no_log_nil|done|done|done].
  - (* ConnectionClosed *)
    destruct (on_close_effect res s) as (lines & d & ->).
    exists [], (rc_heartbeat ctx). state_simpl. rewrite app_nil_r.
    split_and!; [rewrite Hc; by apply Hsame|done|intros _; apply no_log_nil
                |done|done|by apply Hframe].
  - (* Signal *)
    destruct (on_signal_cases name s) as [->|[signal ->]];
      [|destruct (shuttingDown s) eqn:Hsd;
        [rewrite shutdown_latched by done|rewrite shutdown_first by done]].
    + exists [], (rc_heartbeat ctx). rewrite app_nil_r.
      split_and!; [rewrite Hc; by apply Hsame|done|intros _; apply no_log_nil
                  |done|done|done].
    + exists [], (rc_heartbeat ctx). rewrite app_nil_r.
      split_and!; [rewrite Hc; by apply Hsame|done|intros _; apply no_log_nil
                  |done|done|done].
    + eexists _, (rc_heartbeat ctx). state_simpl.
      split_and!; [rewrite Hc; by apply Hsame|reflexivity
                  |intros _; apply no_log_broadcast|done|done|].
      apply Hframe; try done; state_simpl; set_solver.
  - (* RunnerDone *)
    destruct (rc_phase ctx) as [|fc0] eqn:Hp.
    + rewrite (runCallback_executing fc ctx) by done.
      exists [], false. state_simpl. rewrite app_nil_r.
      split_and!; [|done|intros _; apply no_log_nil|done|done|].
      * unfold ctx_after. cbn [stdout_chunk next_phase].
        rewrite Hp, string_app_empty_r. by destruct ctx as [? ? [] ? ? ? ?].
      * unfold coherent. state_simpl. by rewrite Hrun, Hhooks.
    + rewrite (runCallback_cleaning fc fc0 ctx) by done.
      exists [], (rc_heartbeat ctx). rewrite app_nil_r.
      split_and!; [rewrite Hc; by apply Hsame
                  |done|intros _; apply no_log_nil|done|done|done].
Qed.

(** *** Every reachable state is coherent *)

Lemma step_idle_coherent i s :
  coherent s → inflight s = None → coherent (step cfg i s).
Proof.
  intros Hco Hc. pose proof Hco as Hco'.
  unfold coherent in Hco'. rewrite Hc in Hco'.
  destruct Hco' as (Hrun & Hhooks & Hconns).
  assert (∀ s', inflight s' = inflight s →
                daemonTestsRunning s' = daemonTestsRunning s →
                hooks s' = hooks s →
                activeConnections s' ⊆ activeConnections s →
                coherent s') as Hframe.
  { intros s' ? ? ? ?. by eapply coherent_frame. }
  unfold step.
  destruct i as [q res|chunk|chunk|line|line| |res|name|fc|e];
    cbn [handle].
  - rewrite handleRun_resolution.
    destruct (resolution _ q) as [[g d]|]; [|by apply Hframe].
    destruct (shuttingDown s) eqn:Hsd.
    + rewrite runDaemonTests_shutting_down by done. by apply Hframe.
    + rewrite runDaemonTests_started by done.
      apply coherent_started; [by apply Hframe | done].
  - rewrite stdout_write_idle by done. by apply Hframe.
  - rewrite stderr_write_idle by done. by apply Hframe.
  - rewrite console_log_appends. by apply Hframe.
  - rewrite console_error_appends. by apply Hframe.
  - by rewrite heartbeatTick_idle.
  - destruct (on_close_effect res s) as (lines & d & ->). by apply Hframe.
  - destruct (on_signal_cases name s) as [->|[signal ->]]; [done|].
    destruct (shuttingDown s) eqn:Hsd;
      [by rewrite shutdown_latched|rewrite shutdown_first by done].
    apply Hframe; try done; state_simpl; set_solver.
  - by rewrite runCallback_idle.
  - by rewrite runCallbackResume_idle.
Qed.

Lemma step_coherent i s : coherent s → coherent (step cfg i s).
Proof.
  intros Hco. destruct (inflight s) as [ctx|] eqn:Hc;
    [|by apply step_idle_coherent].
  destruct (not_settled i) eqn:Hi.
  { by destruct (step_in_run i ctx s Hco Hc Hi) as (? & ? & ? & ? & ? & ? & ? & ?). }
  destruct i; try discriminate Hi. unfold step. cbn [handle].
  destruct (rc_phase ctx) as [|fc] eqn:Hp.
  - by rewrite (runCallbackResume_executing _ ctx).
  - rewrite (runCallbackResume_cleaning _ fc ctx) by done.
    unfold coherent in *. rewrite Hc in Hco. state_simpl.
    destruct Hco as (Hrun & Hhooks & Horig & Hconns).
    split_and!; try done. by apply subseteq_empty_difference_L.
Qed.

Lemma reachable_coherent s : reachable cfg s → coherent s.
Proof.
  induction 1 as [env0 m0|i s _ IH];
    [apply coherent_initial | by apply step_coherent].
Qed.




(** *** A run in progress *)




Lemma phase_after_keeps_running ins p :
  forallb keeps_running ins = true → phase_after ins p = p.
Proof.
  revert p. induction ins as [|i ins IH]; intros p Hins; [done|].
  cbn in Hins. apply andb_prop in Hins as [Hi Hins].
  cbn. rewrite <- (IH p Hins) at 2. unfold phase_after. f_equal.
  by destruct i, p.
Qed.

Lemma phase_after_cleaning ins fc :
  forallb keeps_running ins = true →
  phase_after ins (Cleaning fc) = Cleaning fc.
Proof. apply phase_after_keeps_running. Qed.



End Execution.

(** ** The run coordinator's guarantees *)

Section Guarantees.

Context (cfg : config).

Lemma stripTrailingNewline_line line :
  Js.stripTrailingNewline (line +:+ nl) = line.
Proof.
  induction line as [|c r IH]; [done|].
  change (Js.stripTrailingNewline (String c (r +:+ nl)) = String c r).
  cbn [Js.stripTrailingNewline]. rewrite IH.
  by destruct r.
Qed.






End Guarantees.


(** C10.  During a run with the JSON reporter, a write to standard error
    makes exactly one call on the run's connection, an 'error' event whose
    data is the chunk without its trailing newline, at the time of the
    write; the chunk still reaches the real stream, and the run's closure,
    with its JSON buffer, is left as it was. *)
Theorem stderr_is_streamed_under_json_reporter
    (cfg : config) (s : daemon) (ctx : run_ctx) (chunk : string) :
  reachable cfg s → inflight s = Some ctx → rc_useJsonReporter ctx = true →
  step cfg (StderrWrite chunk) s =
    set_stderr (stderr s ++ [chunk])
      (set_wire
         (wire s ++
          [(rc_res ctx, Write (EvError (Js.stripTrailingNewline chunk)))]) s)
  ∧ inflight (step cfg (StderrWrite chunk) s) = Some ctx
  ∧ ∀ line, Js.stripTrailingNewline (line +:+ nl) = line.
Proof.
  intros Hs Hc _. apply reachable_coherent in Hs.
  unfold coherent in Hs. rewrite Hc in Hs. destruct Hs as (_ & Hh & _).
  unfold step. cbn [handle].
  rewrite (stderr_write_patched chunk ctx) by (by rewrite ?Hh).
  split_and!; [done|done|apply stripTrailingNewline_line].
Qed.

Lemma stderr_is_streamed_under_json_reporter_witness :
  wire (run_inputs Sample.cfg
          [RunRequest Sample.json 1%positive; StderrWrite ("oops" +:+ nl)]
          Sample.ready) =
  [ (1%positive, WriteHead 200 "text/event-stream");
    (1%positive, Write (EvStart "all tests" false));
    (1%positive, Write (EvError "oops")) ].
Proof.
  pose proof (stderr_is_streamed_under_json_reporter Sample.cfg
    (step Sample.cfg (RunRequest Sample.json 1%positive) Sample.ready)
    (mkCtx 1%positive None true "" native_hooks true Executing)
    ("oops" +:+ nl)
    (reachable_step _ _ _ (reachable_initial _ _ _))
    eq_refl eq_refl) as (H & _ & _).
  cbn [run_inputs foldl]. rewrite H. reflexivity.
Defined.





(** ** The /test/run endpoint *)

Lemma or_str_truthy (file : string) :
  Js.truthy file = true → Js.or_str (Some file) "" = file.
Proof. intros H. cbn. by rewrite H. Qed.

Lemma Suite_induction (P : Suite → Prop) :
  (∀ title file fullTitle suites,
     Forall P suites → P (mkSuite title file fullTitle suites)) →
  ∀ suite, P suite.
Proof.
  intros Hnode. fix IH 1. intros [title file fullTitle suites].
  apply Hnode. induction suites as [|child suites IHsuites].
  - constructor.
  - constructor; [apply IH | apply IHsuites].
Qed.

Lemma elem_of_concat_map {A B : Type} (f : A → list B) (l : list A) (y : B) :
  y ∈ concat (map f l) ↔ ∃ x, x ∈ l ∧ y ∈ f x.
Proof.
  induction l as [|a l IH]; cbn [map concat].
  - rewrite elem_of_nil. split; [done|]. intros (x & Hx & _).
    by apply elem_of_nil in Hx.
  - rewrite elem_of_app, IH. split.
    + intros [Hy|(x & Hx & Hy)]; [exists a | exists x];
        (split; [|done]); [left | by right].
    + intros (x & Hx & Hy). apply elem_of_cons in Hx as [->|Hx];
        [by left | right; eauto].
Qed.

Lemma findSuites_escaped (pattern : string) (suite : Suite) :
  ∀ parentFile t,
    t ∈ findSuites pattern suite parentFile →
    ∃ x, x ∈ all_suites suite ∧ t = escapeRegex (s_fullTitle x).
Proof.
  induction suite as [title file fullTitle suites IH] using Suite_induction.
  intros parentFile t. cbn [findSuites all_suites s_file s_title s_fullTitle
                            s_suites].
  set (here := Js.or_else file parentFile). clearbody here.
  rewrite elem_of_app. intros [Hpushed|Hchildren].
  - exists (mkSuite title file fullTitle suites). split; [left|].
    destruct here as [f|]; [|by apply elem_of_nil in Hpushed].
    destruct (Js.truthy f); [|by apply elem_of_nil in Hpushed].
    destruct (_ && _); [|by apply elem_of_nil in Hpushed].
    by apply list_elem_of_singleton in Hpushed.
  - apply elem_of_concat_map in Hchildren as (child & Hchild & Ht).
    rewrite Forall_forall in IH.
    destruct (IH child Hchild here t Ht) as (x & Hx & ->).
    exists x. split; [|done]. right.
    apply elem_of_concat_map. by exists child.
Qed.


(** C4.  A request whose file pattern finds no suite is answered with the
    response head, one 'error' event saying that no tests were found for
    the file, a 'done' event with failures 1, and the end of the response;
    nothing else of the daemon changes, so the runner is not invoked. *)
Theorem no_suites_for_file_fails_fast
    (cfg : config) (q : query) (res : conn) (s : daemon) (file : string) :
  q_file q = Some file → Js.truthy file = true →
  findSuitesForFile (m_suite (mochaInstance s)) file = [] →
  exec (handleRun cfg q res) s =
    set_wire
      (wire s ++
       [ (res, WriteHead 200 "text/event-stream");
         (res, Write (EvError ("No tests found for file: " +:+ file)));
         (res, Write (EvDone (JNum 1)));
         (res, End) ]) s
  ∧ m_runs (mochaInstance (exec (handleRun cfg q res) s)) =
    m_runs (mochaInstance s)
  ∧ inflight (exec (handleRun cfg q res) s) = inflight s.
Proof.
  intros Hq Hfile Hnone. rewrite handleRun_resolution.
  unfold resolution. rewrite Hq, (or_str_truthy file Hfile), Hfile, Hnone.
  done.
Qed.

Lemma no_suites_for_file_fails_fast_witness :
  wire (step Sample.cfg
          (RunRequest (Sample.by_file "nonexistent/path.ts" None) 1%positive)
          Sample.ready) =
  [ (1%positive, WriteHead 200 "text/event-stream");
    (1%positive,
     Write (EvError "No tests found for file: nonexistent/path.ts"));
    (1%positive, Write (EvDone (JNum 1)));
    (1%positive, End) ].
Proof.
  destruct (no_suites_for_file_fails_fast Sample.cfg
    (Sample.by_file "nonexistent/path.ts" None) 1%positive Sample.ready
    "nonexistent/path.ts" eq_refl eq_refl eq_refl) as (H & _).
  unfold step. cbn [handle]. rewrite H. reflexivity.
Defined.



(** ** The entry guard and the shutdown latch *)

Section Latch.

Context (cfg : config).









End Latch.




(** ** A runner that gives no count *)



(** ** Handlers do not read the record of calls *)

Section Oblivious.

Context (cfg : config).















End Oblivious.



(** ** More on paths and patterns *)

Section Paths.

Implicit Types f p q : string.

Lemma pathMatchesPattern_contiguous f p :
  pathMatchesPattern f p = true ↔ contiguous_run (segments p) (segments f).
Proof.
  unfold pathMatchesPattern. rewrite contiguous_run_occurs.
  destruct (Nat.ltb_spec (length (segments f)) (length (segments p)))
    as [Hlt|Hle].
  - split; [done|]. intros (k & Hk & _). lia.
  - rewrite searchFrom_true. split.
    + intros (k & Hk & Hocc). exists k. split; [lia | done].
    + intros (k & Hk & Hocc). exists k. split; [lia | done].
Qed.

Lemma contiguous_run_refl (ps : list string) : contiguous_run ps ps.
Proof. exists [], []. by rewrite app_nil_r. Qed.

Lemma contiguous_run_trans (a b c : list string) :
  contiguous_run a b → contiguous_run b c → contiguous_run a c.
Proof.
  intros (p1 & q1 & ->) (p2 & q2 & ->). exists (p2 ++ p1), (q1 ++ q2).
  by rewrite <- !app_assoc.
Qed.

Lemma contiguous_run_antisym (a b : list string) :
  contiguous_run a b → contiguous_run b a → a = b.
Proof.
  intros (p1 & q1 & ->) (p2 & q2 & H).
  apply (f_equal length) in H. rewrite !length_app in H.
  destruct p1; [|simpl in H; lia]. destruct q1; [|simpl in H; lia].
  by rewrite app_nil_r.
Qed.

Lemma pathMatchesPattern_refl f : pathMatchesPattern f f = true.
Proof. apply pathMatchesPattern_contiguous, contiguous_run_refl. Qed.

Lemma pathMatchesPattern_trans f p q :
  pathMatchesPattern p q = true → pathMatchesPattern f p = true →
  pathMatchesPattern f q = true.
Proof.
  rewrite !pathMatchesPattern_contiguous. apply contiguous_run_trans.
Qed.

Lemma pathMatchesPattern_segments f f' p p' :
  segments f = segments f' → segments p = segments p' →
  pathMatchesPattern f p = pathMatchesPattern f' p'.
Proof. unfold pathMatchesPattern. by intros -> ->. Qed.

Lemma string_app_cons c (a b : string) :
  String c a +:+ b = String c (a +:+ b).
Proof. reflexivity. Qed.

Lemma all_slashes_snoc s : Js.all_slashes (s +:+ "/") = Js.all_slashes s.
Proof.
  induction s as [|c r IH]; [done|].
  rewrite string_app_cons. cbn [Js.all_slashes]. by rewrite IH.
Qed.

Lemma stripTrailingSlashes_snoc s :
  Js.stripTrailingSlashes (s +:+ "/") = Js.stripTrailingSlashes s.
Proof.
  induction s as [|c r IH]; [done|].
  rewrite string_app_cons. cbn [Js.stripTrailingSlashes Js.all_slashes].
  by rewrite all_slashes_snoc, IH.
Qed.

Lemma segments_snoc s : segments (s +:+ "/") = segments s.
Proof. unfold segments. by rewrite stripTrailingSlashes_snoc. Qed.

Lemma occurs_backslashesToSlashes s :
  occurs "\" (Js.backslashesToSlashes s) = false.
Proof.
  induction s as [|c r IH]; [done|].
  cbn [Js.backslashesToSlashes occurs]. rewrite IH, orb_false_r.
  unfold Js.is_backslash. destruct (Ascii.eqb c "\") eqn:Hc; [done|].
  done.
Qed.

Lemma backslashesToSlashes_id s :
  occurs "\" s = false → Js.backslashesToSlashes s = s.
Proof.
  induction s as [|c r IH]; [done|].
  cbn [Js.backslashesToSlashes occurs]. intros [Hc Hr]%orb_false_elim.
  unfold Js.is_backslash. by rewrite Hc, IH.
Qed.

Lemma backslashesToSlashes_app a b :
  Js.backslashesToSlashes (a +:+ b) =
  Js.backslashesToSlashes a +:+ Js.backslashesToSlashes b.
Proof.
  induction a as [|c r IH]; [done|].
  rewrite string_app_cons. cbn [Js.backslashesToSlashes].
  by rewrite IH.
Qed.

Lemma occurs_stripLeadingSlashes c s :
  occurs c s = false → occurs c (Js.stripLeadingSlashes s) = false.
Proof.
  induction s as [|d r IH]; [done|].
  cbn [Js.stripLeadingSlashes occurs]. intros [Hd Hr]%orb_false_elim.
  destruct (Js.is_slash d); [by apply IH|].
  cbn [occurs]. by rewrite Hd, Hr.
Qed.

Lemma stripLeadingSlashes_idem s :
  Js.stripLeadingSlashes (Js.stripLeadingSlashes s) = Js.stripLeadingSlashes s.
Proof.
  induction s as [|d r IH]; [done|].
  cbn [Js.stripLeadingSlashes]. destruct (Js.is_slash d) eqn:Hd; [done|].
  cbn [Js.stripLeadingSlashes]. by rewrite Hd.
Qed.

Lemma stripLeadingSlashes_no_slash s r :
  Js.stripLeadingSlashes s ≠ String "/" r.
Proof.
  induction s as [|d s IH]; [done|].
  cbn [Js.stripLeadingSlashes]. destruct (Js.is_slash d) eqn:Hd; [done|].
  intros [= -> _]. done.
Qed.

Lemma stripLeadingSlashes_snoc s :
  Js.stripLeadingSlashes (s +:+ "/") =
  if Js.all_slashes s then "" else Js.stripLeadingSlashes s +:+ "/".
Proof.
  induction s as [|d r IH]; [done|].
  rewrite string_app_cons. cbn [Js.stripLeadingSlashes Js.all_slashes].
  destruct (Js.is_slash d); [done|]. by rewrite string_app_cons.
Qed.

Lemma stripLeadingSlashes_all_slashes s :
  Js.all_slashes s = true → Js.stripLeadingSlashes s = "".
Proof.
  induction s as [|d r IH]; [done|].
  cbn [Js.stripLeadingSlashes Js.all_slashes].
  intros [-> Hr]%andb_prop. by apply IH.
Qed.

Lemma normalizePath_leading_slash p :
  normalizePath ("/" +:+ p) = normalizePath p.
Proof. by destruct p. Qed.

Lemma normalizePath_trailing_slash p :
  segments (normalizePath (p +:+ "/")) = segments (normalizePath p).
Proof.
  destruct p as [|c r]; [done|].
  unfold normalizePath. rewrite string_app_cons. cbn [Js.truthy negb].
  rewrite <- string_app_cons, stripLeadingSlashes_snoc.
  destruct (Js.all_slashes (String c r)) eqn:Hall.
  - by rewrite stripLeadingSlashes_all_slashes.
  - by rewrite backslashesToSlashes_app, segments_snoc.
Qed.

Lemma split_slash_snoc s :
  Js.split_slash (s +:+ "/") = Js.split_slash s ++ [""].
Proof.
  induction s as [|c r IH]; [done|].
  rewrite string_app_cons. cbn [Js.split_slash]. rewrite IH.
  destruct (Js.is_slash c); [done|].
  pose proof (split_slash_nonempty r) as Hne.
  by destruct (Js.split_slash r).
Qed.

End Paths.

(** X1.  normalizePath returns a path without backslashes. A path that has
    none to begin with comes back without its leading slashes, however many,
    and is then left alone by a second normalization; one more leading slash
    in front of any path changes nothing. *)
Theorem normalizePath_forward_slashes (p : string) :
  occurs "\" (normalizePath p) = false
  ∧ normalizePath ("/" +:+ p) = normalizePath p
  ∧ (occurs "\" p = false →
     (∀ r, normalizePath p ≠ String "/" r)
     ∧ normalizePath (normalizePath p) = normalizePath p).
Proof.
  split_and!.
  - unfold normalizePath. destruct p; [done|]. cbn [Js.truthy negb].
    apply occurs_backslashesToSlashes.
  - apply normalizePath_leading_slash.
  - intros Hp. unfold normalizePath at 1 3 4. destruct p as [|c r]; [done|].
    cbn [Js.truthy negb].
    rewrite backslashesToSlashes_id by by apply occurs_stripLeadingSlashes.
    split; [intros r'; apply stripLeadingSlashes_no_slash|].
    unfold normalizePath.
    destruct (Js.stripLeadingSlashes (String c r)) as [|c' r'] eqn:Hs; [done|].
    cbn [Js.truthy negb]. rewrite <- Hs, stripLeadingSlashes_idem.
    apply backslashesToSlashes_id. by apply occurs_stripLeadingSlashes.
Qed.

Lemma normalizePath_forward_slashes_witness :
  normalizePath (normalizePath "//imports/api/a.spec.ts") =
  normalizePath "//imports/api/a.spec.ts".
Proof.
  apply (proj2 (proj2 (normalizePath_forward_slashes
                         "//imports/api/a.spec.ts"))).
  reflexivity.
Defined.

(** X2.  pathMatchesPattern orders paths: every path matches itself as a
    pattern, a pattern that matches a path matches every file that path
    matches, and two paths that match each other have the same segments. A
    trailing slash on the file or on the pattern makes no difference. *)
Theorem pathMatchesPattern_is_an_order (f p q : string) :
  pathMatchesPattern f f = true
  ∧ (pathMatchesPattern p q = true → pathMatchesPattern f p = true →
     pathMatchesPattern f q = true)
  ∧ (pathMatchesPattern f p = true → pathMatchesPattern p f = true →
     segments f = segments p)
  ∧ pathMatchesPattern (f +:+ "/") p = pathMatchesPattern f p
  ∧ pathMatchesPattern f (p +:+ "/") = pathMatchesPattern f p.
Proof.
  split_and!.
  - apply pathMatchesPattern_refl.
  - apply pathMatchesPattern_trans.
  - rewrite !pathMatchesPattern_contiguous. intros H1 H2.
    by apply contiguous_run_antisym.
  - apply pathMatchesPattern_segments; [apply segments_snoc | done].
  - apply pathMatchesPattern_segments; [done | apply segments_snoc].
Qed.

Lemma pathMatchesPattern_is_an_order_witness :
  pathMatchesPattern "imports/api/users/users.spec.ts" "api" = true.
Proof.
  apply (proj1 (proj2 (pathMatchesPattern_is_an_order
                         "imports/api/users/users.spec.ts" "api/users"
                         "api"))); reflexivity.
Defined.

(** ** More on escaping *)

Section MoreEscaping.

Lemma replaceClassAll_app cls tmpl a b :
  Js.replaceClassAll cls tmpl (a +:+ b) =
  Js.replaceClassAll cls tmpl a +:+ Js.replaceClassAll cls tmpl b.
Proof.
  induction a as [|c r IH]; [done|].
  rewrite string_app_cons. cbn [Js.replaceClassAll].
  by rewrite IH, string_app_assoc.
Qed.

Lemma escapeRegex_app a b :
  escapeRegex (a +:+ b) = escapeRegex a +:+ escapeRegex b.
Proof. apply replaceClassAll_app. Qed.

Lemma escapeRegex_inj a b : escapeRegex a = escapeRegex b → a = b.
Proof.
  intros H. apply (f_equal literal_of_pattern) in H.
  rewrite !literal_of_escapeRegex in H. by injection H.
Qed.

Lemma escapeRegex_length s :
  String.length s ≤ String.length (escapeRegex s) ≤ 2 * String.length s.
Proof.
  induction s as [|c r IH]; [simpl; lia|].
  destruct (decide (c ∈ metacharacters)) as [Hc|Hc].
  - rewrite escapeRegex_meta by done. simpl. lia.
  - rewrite escapeRegex_plain by done. simpl. lia.
Qed.

Lemma bar_meta : "|"%char ∈ metacharacters.
Proof. apply isRegexSpecial_elem. reflexivity. Qed.

Lemma plain_not_backslash c :
  c ∉ metacharacters → Js.is_backslash c = false.
Proof.
  intros Hc. apply not_true_is_false. intros Hb. apply Hc.
  apply Ascii.eqb_eq in Hb. subst c. apply backslash_meta.
Qed.

Lemma plain_not_bar c : c ∉ metacharacters → Ascii.eqb c "|" = false.
Proof.
  intros Hc. apply not_true_is_false. intros Hb. apply Hc.
  apply Ascii.eqb_eq in Hb. subst c. apply bar_meta.
Qed.

Lemma alternatives_escapeRegex_bar t rest :
  alternatives (escapeRegex t +:+ String "|" rest) =
  escapeRegex t :: alternatives rest.
Proof.
  induction t as [|c r IH]; [done|].
  destruct (decide (c ∈ metacharacters)) as [Hc|Hc].
  - rewrite escapeRegex_meta by done. rewrite 2!string_app_cons.
    cbn [alternatives]. change (Js.is_backslash "\") with true.
    cbn iota. by rewrite IH.
  - rewrite escapeRegex_plain by done. rewrite string_app_cons.
    cbn [alternatives]. rewrite plain_not_backslash, plain_not_bar by done.
    by rewrite IH.
Qed.

Lemma alternatives_escapeRegex t :
  alternatives (escapeRegex t) = [escapeRegex t].
Proof.
  induction t as [|c r IH]; [done|].
  destruct (decide (c ∈ metacharacters)) as [Hc|Hc].
  - rewrite escapeRegex_meta by done.
    cbn [alternatives]. change (Js.is_backslash "\") with true.
    cbn iota. by rewrite IH.
  - rewrite escapeRegex_plain by done.
    cbn [alternatives]. rewrite plain_not_backslash, plain_not_bar by done.
    by rewrite IH.
Qed.

Lemma alternatives_join titles :
  titles ≠ [] →
  alternatives (Js.join "|" (escapeRegex <$> titles)) = escapeRegex <$> titles.
Proof.
  induction titles as [|t titles IH]; [done|]. intros _.
  destruct titles as [|t' titles].
  - apply alternatives_escapeRegex.
  - cbn [fmap list_fmap Js.join] in *.
    change ("|" +:+ ?x) with (String "|" x).
    rewrite alternatives_escapeRegex_bar. f_equal. by apply IH.
Qed.

End MoreEscaping.

(** X3.  escapeRegex escapes a concatenation part by part, gives different
    results for different strings, and at most doubles the length. *)
Theorem escapeRegex_is_injective (a b : string) :
  escapeRegex (a +:+ b) = escapeRegex a +:+ escapeRegex b
  ∧ (escapeRegex a = escapeRegex b → a = b)
  ∧ String.length a ≤ String.length (escapeRegex a) ≤ 2 * String.length a.
Proof.
  split_and!; [apply escapeRegex_app | apply escapeRegex_inj
              | apply escapeRegex_length | apply escapeRegex_length].
Qed.

Lemma escapeRegex_is_injective_witness : "a.b" = "a.b".
Proof.
  apply (proj1 (proj2 (escapeRegex_is_injective "a.b" "a.b"))).
  reflexivity.
Defined.

(** ** The suite registry's two walkers *)

Section Walkers.

Lemma flat_map_concat_map_map {A B C : Type} (f : B → list C)
    (g : A → list B) (l : list A) :
  flat_map f (concat (map g l)) = concat (map (λ x, flat_map f (g x)) l).
Proof.
  induction l as [|x l IH]; [done|].
  cbn [map concat]. by rewrite flat_map_app, IH.
Qed.

Lemma concat_map_Forall {A B : Type} (f g : A → list B) (l : list A) :
  Forall (λ x, f x = g x) l → concat (map f l) = concat (map g l).
Proof. induction 1 as [|x l Hx _ IH]; [done|]. cbn. by rewrite Hx, IH. Qed.

Lemma findSuites_visited pattern suite :
  ∀ parentFile,
    findSuites pattern suite parentFile =
    flat_map (λ v, if selected pattern v
                   then [escapeRegex (s_fullTitle v.2)] else [])
             (visited suite parentFile).
Proof.
  induction suite as [title file fullTitle suites IH] using Suite_induction.
  intros parentFile.
  cbn [findSuites visited s_file s_title s_fullTitle s_suites flat_map].
  set (here := Js.or_else file parentFile). clearbody here.
  rewrite flat_map_concat_map_map. f_equal.
  - unfold selected. cbn [fst snd s_title s_fullTitle].
    destruct here as [f|]; [|done]. destruct (Js.truthy f); [|done].
    cbn [andb]. by destruct (_ && _).
  - apply concat_map_Forall. eapply Forall_impl; [exact IH|].
    intros child Hchild. apply Hchild.
Qed.

Lemma pushed_onto_app entry a b :
  pushed_onto (pushed_onto entry a) b = pushed_onto entry (a ++ b).
Proof.
  destruct a as [|x a]; [done|]. destruct b as [|y b].
  - by rewrite app_nil_r.
  - cbn. by rewrite <- app_assoc.
Qed.

Lemma walkSuites_lookup suite file :
  ∀ parentFile fileMap,
    walkSuites suite parentFile fileMap !! file =
    pushed_onto (fileMap !! file)
      (flat_map (λ v, if titled_in file v then [s_fullTitle v.2] else [])
                (visited suite parentFile)).
Proof.
  induction suite as [title sfile fullTitle suites IH] using Suite_induction.
  intros parentFile fileMap.
  cbn [walkSuites visited s_file s_title s_fullTitle s_suites flat_map].
  set (here := Js.or_else sfile parentFile). clearbody here.
  rewrite <- pushed_onto_app.
  match goal with
  | |- foldl _ ?fm _ !! _ = pushed_onto (pushed_onto _ ?ts) _ =>
      assert (fm !! file = pushed_onto (fileMap !! file) ts) as <-;
      [|generalize fm; intros fm1]
  end.
  - unfold titled_in. cbn [fst snd s_title s_fullTitle].
    destruct here as [f|]; [|done].
    destruct (decide (f = file)) as [->|Hne].
    + rewrite bool_decide_eq_true_2 by done. cbn [andb].
      destruct (Js.truthy file && Js.truthy title); [|done].
      by rewrite lookup_insert_eq.
    + rewrite bool_decide_eq_false_2 by congruence. cbn [andb].
      destruct (Js.truthy f && Js.truthy title); [|done].
      by rewrite lookup_insert_ne.
  - revert fm1. induction IH as [|child suites Hchild _ IHsuites];
      intros fm1; [done|].
    cbn [foldl map concat]. rewrite IHsuites, Hchild.
    by rewrite pushed_onto_app, flat_map_app.
Qed.

Lemma titled_in_selected file v :
  titled_in file v = true → selected (normalizePath file) v = true.
Proof.
  unfold titled_in, selected. destruct v as [[f|] x]; cbn [fst snd].
  - intros [[Hf Hfile]%andb_prop Htitle]%andb_prop.
    apply bool_decide_eq_true in Hf. injection Hf as ->.
    by rewrite Hfile, Htitle, pathMatchesPattern_refl.
  - by rewrite bool_decide_eq_false_2.
Qed.

Lemma flat_map_select_sublist {A B C : Type} (P Q : A → bool) (h : A → B)
    (g : B → C) (l : list A) :
  (∀ v, P v = true → Q v = true) →
  sublist (g <$> flat_map (λ v, if P v then [h v] else []) l)
          (flat_map (λ v, if Q v then [g (h v)] else []) l).
Proof.
  intros HPQ. induction l as [|v l IH]; [done|].
  cbn [flat_map]. rewrite fmap_app. apply sublist_app; [|done].
  destruct (P v) eqn:HP.
  - by rewrite (HPQ v HP).
  - apply sublist_nil_l.
Qed.

Lemma flat_map_select_fmap {A B C : Type} (Q : A → bool) (h : A → B)
    (g : B → C) (l : list A) :
  flat_map (λ v, if Q v then [g (h v)] else []) l =
  g <$> flat_map (λ v, if Q v then [h v] else []) l.
Proof.
  induction l as [|v l IH]; [done|].
  cbn [flat_map]. rewrite fmap_app, IH. by destruct (Q v).
Qed.

Lemma selected_segments p p' v :
  segments p = segments p' → selected p v = selected p' v.
Proof.
  intros Hp. unfold selected. destruct v.1 as [f|]; [|done].
  by rewrite (pathMatchesPattern_segments _ (normalizePath f) p p').
Qed.

Lemma flat_map_select_ext {A B : Type} (P Q : A → bool) (h : A → B)
    (l : list A) :
  (∀ v, P v = Q v) →
  flat_map (λ v, if P v then [h v] else []) l =
  flat_map (λ v, if Q v then [h v] else []) l.
Proof.
  intros HPQ. induction l as [|v l IH]; [done|].
  cbn [flat_map]. by rewrite HPQ, IH.
Qed.

Lemma findSuites_segments p p' suite parentFile :
  segments p = segments p' →
  findSuites p suite parentFile = findSuites p' suite parentFile.
Proof.
  intros Hp. rewrite !findSuites_visited.
  apply flat_map_select_ext. intros v. by apply selected_segments.
Qed.

Lemma selected_broader p q v :
  pathMatchesPattern q p = true → selected q v = true → selected p v = true.
Proof.
  intros Hqp. unfold selected. destruct v.1 as [f|]; [|done].
  intros [[Hf Hm]%andb_prop Ht]%andb_prop.
  by rewrite Hf, Ht, (pathMatchesPattern_trans _ q p).
Qed.

End Walkers.

(** X4.  The anchor the /test/run handler builds from the titles of a file's
    suites has these titles, escaped, as its alternatives and no others: a
    bar inside a title never separates two alternatives. *)
Theorem anchor_alternatives_are_the_suites (root : Suite) (file : string) :
  findSuitesForFile root file ≠ [] →
  alternatives (Js.join "|" (findSuitesForFile root file)) =
  findSuitesForFile root file
  ∧ Forall (λ t, ∃ x, x ∈ all_suites root ∧ t = escapeRegex (s_fullTitle x))
           (findSuitesForFile root file).
Proof.
  intros Hsome. split.
  - unfold findSuitesForFile in *. rewrite findSuites_visited in *.
    rewrite (flat_map_select_fmap _ (λ v, s_fullTitle v.2) escapeRegex) in *.
    apply alternatives_join. intros Hnil. by rewrite Hnil in Hsome.
  - apply Forall_forall. intros t Ht. by eapply findSuites_escaped.
Qed.

Lemma anchor_alternatives_are_the_suites_witness :
  alternatives (Js.join "|" (findSuitesForFile Sample.registry "x")) =
  ["A"; "A inner"; "B \(b\)"].
Proof.
  destruct (anchor_alternatives_are_the_suites Sample.registry "x")
    as [H _]; [by vm_compute|].
  rewrite H. reflexivity.
Defined.

(** X5.  buildFileMap lists, under every file, the full titles of the titled
    suites the walk resolves to that file (a suite without a file of its own
    belongs to the file of its nearest ancestor that has one), in the order
    of the walk; a file with no such suite has no entry. *)
Theorem buildFileMap_lists_titles_by_file (root : Suite) (file : string) :
  buildFileMap root !! file =
  match titles_of_file root file with
  | [] => None
  | titles => Some titles
  end.
Proof.
  unfold buildFileMap, titles_of_file. rewrite walkSuites_lookup.
  rewrite lookup_empty. unfold pushed_onto. by destruct (flat_map _ _).
Qed.

(** X6.  Every file that buildFileMap lists can be run: given as the file
    pattern of a request it finds at least the suites listed under it, so
    the request is never answered with "No tests found". *)
Theorem listed_files_can_be_run
    (root : Suite) (file : string) (titles : list string) :
  buildFileMap root !! file = Some titles →
  titles ≠ []
  ∧ sublist (escapeRegex <$> titles) (findSuitesForFile root file)
  ∧ findSuitesForFile root file ≠ []
  ∧ ∀ q, q_file q = Some file → resolution root q ≠ None.
Proof.
  unfold buildFileMap. rewrite walkSuites_lookup, lookup_empty.
  intros Hlisted.
  assert (titles ≠ [] ∧
          titles = flat_map (λ v, if titled_in file v
                                  then [s_fullTitle v.2] else [])
                            (visited root None)) as [Hne ->].
  { unfold pushed_onto in Hlisted. destruct (flat_map _ _); [done|].
    cbn in Hlisted. by injection Hlisted as <-. }
  assert (sublist
            (escapeRegex <$>
             flat_map (λ v, if titled_in file v then [s_fullTitle v.2] else [])
                      (visited root None))
            (findSuitesForFile root file)) as Hsub.
  { unfold findSuitesForFile. rewrite findSuites_visited.
    apply (flat_map_select_sublist _ _ (λ v, s_fullTitle v.2) escapeRegex).
    apply titled_in_selected. }
  assert (findSuitesForFile root file ≠ []) as Hfound.
  { intros Hnil. rewrite Hnil in Hsub. apply sublist_nil_r in Hsub.
    apply fmap_nil_inv in Hsub. done. }
  assert (Js.truthy file = true) as Hfile.
  { destruct (flat_map _ _) as [|t ts] eqn:Hts in Hne; [done|].
    clear Hsub Hfound Hne Hlisted.
    induction (visited root None) as [|v l IH]; [done|].
    cbn [flat_map] in Hts. unfold titled_in at 1 in Hts.
    destruct (Js.truthy file); [done|].
    rewrite andb_false_r in Hts. cbn in Hts. by apply IH. }
  split_and!; try done.
  intros q Hq. unfold resolution. rewrite Hq, (or_str_truthy file Hfile).
  rewrite Hfile. destruct (findSuitesForFile root file); done.
Qed.

Lemma listed_files_can_be_run_witness :
  findSuitesForFile Sample.registry "/x/b.spec.ts" ≠ [].
Proof.
  apply (listed_files_can_be_run Sample.registry "/x/b.spec.ts" ["B (b)"]).
  by vm_compute.
Defined.

(** X7.  A leading or a trailing slash on the file pattern of a request
    makes no difference to the suites it finds; the file name the handler
    puts in the description, the part of the pattern after its last slash,
    is empty when the pattern ends with a slash. *)
Theorem file_pattern_slashes_are_ignored (root : Suite) (pattern : string) :
  findSuitesForFile root ("/" +:+ pattern) = findSuitesForFile root pattern
  ∧ findSuitesForFile root (pattern +:+ "/") = findSuitesForFile root pattern
  ∧ pop (Js.split_slash (pattern +:+ "/")) = "".
Proof.
  unfold findSuitesForFile. split_and!.
  - by rewrite normalizePath_leading_slash.
  - apply findSuites_segments, normalizePath_trailing_slash.
  - unfold pop. rewrite split_slash_snoc. apply last_last.
Qed.

(** X8.  A pattern that matches a path finds every suite that path finds as
    a pattern, in the same order: a shorter pattern can only select more. *)
Theorem broader_pattern_finds_more (root : Suite) (pattern path : string) :
  pathMatchesPattern (normalizePath path) (normalizePath pattern) = true →
  sublist (findSuitesForFile root path) (findSuitesForFile root pattern).
Proof.
  intros Hm. unfold findSuitesForFile. rewrite !findSuites_visited.
  rewrite (flat_map_select_fmap _ (λ v, s_fullTitle v.2) escapeRegex).
  apply (flat_map_select_sublist _ _ (λ v, s_fullTitle v.2) escapeRegex).
  intros v. by apply selected_broader.
Qed.

Lemma broader_pattern_finds_more_witness :
  sublist (findSuitesForFile Sample.registry "x/a.spec.ts")
          (findSuitesForFile Sample.registry "/x/").
Proof.
  apply (broader_pattern_finds_more Sample.registry "/x/" "x/a.spec.ts").
  reflexivity.
Defined.

(** ** Cleaning the database *)

Lemma resetAllCollections_fold {doc : Type} (names : list string)
    (db : gmap string (list doc)) (name : string) :
  foldl (λ db name,
           if String.prefix "system." name then db
           else <[name := []]> db) db names !! name =
  if negb (String.prefix "system." name) && bool_decide (name ∈ names)
  then Some [] else db !! name.
Proof.
  revert db. induction names as [|x names IH]; intros db.
  - cbn. by rewrite andb_false_r.
  - cbn [foldl]. rewrite IH.
    destruct (String.prefix "system." name) eqn:Hsys; cbn [negb andb].
    + destruct (String.prefix "system." x) eqn:Hx; [done|].
      rewrite lookup_insert_ne; [done|]. intros ->. congruence.
    + destruct (decide (name = x)) as [->|Hne].
      * rewrite Hsys, lookup_insert_eq.
        rewrite (bool_decide_eq_true_2 (x ∈ x :: names)) by left.
        by case_bool_decide.
      * assert (bool_decide (name ∈ x :: names) = bool_decide (name ∈ names))
          as ->.
        { apply bool_decide_ext. rewrite elem_of_cons.
          split; [by intros [?|?] | by right]. }
        case_bool_decide; [done|].
        destruct (String.prefix "system." x); [done|].
        by rewrite lookup_insert_ne.
Qed.

(** X9.  resetAllCollections leaves every collection whose name starts with
    "system." as it is and empties every other collection; it creates no
    collection and drops none; and a second call changes nothing. *)
Theorem resetAllCollections_spares_system_collections
    {doc : Type} (db : gmap string (list doc)) (name : string) :
  resetAllCollections db !! name =
    (if String.prefix "system." name then db !! name
     else (λ _, []) <$> db !! name)
  ∧ dom (resetAllCollections db) = dom db
  ∧ resetAllCollections (resetAllCollections db) = resetAllCollections db.
Proof.
  assert (∀ (d : gmap string (list doc)) n,
            resetAllCollections d !! n =
            (if String.prefix "system." n then d !! n
             else (λ _, []) <$> d !! n)) as Hlookup.
  { intros d n. unfold resetAllCollections. rewrite resetAllCollections_fold.
    destruct (String.prefix "system." n); cbn [negb andb]; [done|].
    destruct (d !! n) as [docs|] eqn:Hn.
    - rewrite bool_decide_eq_true_2; [done|].
      apply list_elem_of_fmap. exists (n, docs). split; [done|].
      by apply elem_of_map_to_list.
    - rewrite bool_decide_eq_false_2; [done|].
      intros ([n' docs] & -> & Hin)%list_elem_of_fmap.
      apply elem_of_map_to_list in Hin. cbn in Hn. congruence. }
  split_and!.
  - apply Hlookup.
  - apply set_eq. intros n. rewrite !elem_of_dom, Hlookup.
    destruct (String.prefix "system." n); [done|].
    by rewrite fmap_is_Some.
  - apply map_eq. intros n. rewrite !Hlookup.
    destruct (String.prefix "system." n); [done|].
    by destruct (db !! n).
Qed.

(** ** One input, case by case *)

Section Cases.

Context (cfg : config).





End Cases.




Section Attended.

Context (cfg : config).





End Attended.

(** ** What every input leaves alone *)

Section Frames.

Context (cfg : config).



















End Frames.

(** ** The daemon between requests and during a run *)





















(** ** Tests at startup *)

(** Reduces the projections of processes built with the setters. *)
Ltac proc_simpl :=
  cbn [Startup.set_serverTestsDone Startup.set_clientTestsRunning
       Startup.set_clientLines Startup.set_callCount
       Startup.set_clientFailures Startup.set_serverFailures
       Startup.set_runner Startup.set_printed Startup.set_appended
       Startup.set_browsersStarted Startup.set_browsersDone
       Startup.set_awaited Startup.set_coverage Startup.set_exited
       Startup.serverTestsDone Startup.clientTestsRunning
       Startup.clientLines Startup.callCount Startup.clientFailures
       Startup.serverFailures Startup.runner Startup.printed
       Startup.appended Startup.browsersStarted Startup.browsersDone
       Startup.awaited Startup.coverage Startup.exited Startup.log] in *.

Section StartupFacts.

Context (a : Startup.arguments).

Implicit Types p q : Startup.process.

(** *** What only prints or buffers *)

Lemma prints_absorb pr' cl' pr cl p :
  Startup.set_printed pr'
    (Startup.set_clientLines cl'
       (Startup.set_printed pr (Startup.set_clientLines cl p))) =
  Startup.set_printed pr' (Startup.set_clientLines cl' p).
Proof. by destruct p. Qed.

Lemma but_for_prints_refl p : Startup.but_for_prints p p.
Proof.
  exists (Startup.printed p), (Startup.clientLines p). by destruct p.
Qed.

Lemma but_for_prints_trans p1 p2 p3 :
  Startup.but_for_prints p1 p2 → Startup.but_for_prints p2 p3 →
  Startup.but_for_prints p1 p3.
Proof.
  intros (pr & cl & ->) (pr' & cl' & ->).
  eexists _, _. apply prints_absorb.
Qed.

Lemma but_for_prints_printed pr p :
  Startup.but_for_prints p (Startup.set_printed pr p).
Proof. exists pr, (Startup.clientLines p). by destruct p. Qed.

Lemma but_for_prints_clientLines cl p :
  Startup.but_for_prints p (Startup.set_clientLines cl p).
Proof. exists (Startup.printed p), cl. by destruct p. Qed.

Lemma but_for_prints_log args p :
  Startup.but_for_prints p (Startup.log args p).
Proof. apply but_for_prints_printed. Qed.

Lemma but_for_prints_clientLogBuffer line p :
  Startup.but_for_prints p (Startup.clientLogBuffer line p).
Proof.
  unfold Startup.clientLogBuffer. destruct (Startup.serverTestsDone p).
  - apply but_for_prints_log.
  - apply but_for_prints_clientLines.
Qed.

Lemma but_for_prints_foldl {A : Type}
    (f : Startup.process → A → Startup.process) (l : list A) p :
  (∀ q x, Startup.but_for_prints q (f q x)) →
  Startup.but_for_prints p (foldl f p l).
Proof.
  intros Hf. revert p. induction l as [|x l IH]; intros p.
  - apply but_for_prints_refl.
  - cbn [foldl]. eapply but_for_prints_trans; [apply Hf | apply IH].
Qed.

Lemma but_for_prints_printHeader type p :
  Startup.but_for_prints p (Startup.printHeader a type p).
Proof.
  apply but_for_prints_foldl. intros q line.
  destruct (String.eqb type "CLIENT").
  - apply but_for_prints_clientLogBuffer.
  - apply but_for_prints_log.
Qed.

Lemma flushClientLines_flushed p :
  Startup.flushClientLines p =
  Startup.set_printed
    (Startup.printed p ++ Startup.flushed (Startup.clientLines p)) p.
Proof.
  unfold Startup.flushClientLines, Startup.flushed.
  assert (∀ (lines : list string) (l : list (nat * string)) q,
            Startup.clientLines q = lines →
            foldl (λ p entry,
                     Startup.log [Startup.LStr entry.2; Startup.LNum entry.1;
                                  Startup.LArr (Startup.clientLines p)] p)
                  q l =
            Startup.set_printed
              (Startup.printed q ++
               ((λ entry, [Startup.LStr entry.2; Startup.LNum entry.1;
                           Startup.LArr lines]) <$> l)) q) as Hfold.
  { intros lines l. induction l as [|entry l IH]; intros q Hq.
    - cbn. rewrite app_nil_r. by destruct q.
    - cbn [foldl]. rewrite IH by done. rewrite Hq.
      destruct q. proc_simpl. cbn [fmap list_fmap].
      by rewrite <- app_assoc. }
  rewrite (Hfold (Startup.clientLines p)) by done.
  by rewrite fmap_imap.
Qed.

Lemma logs_printed (lines : list string) p :
  foldl (λ p line, Startup.log [Startup.LStr line] p) p lines =
  Startup.set_printed
    (Startup.printed p ++ ((λ line, [Startup.LStr line]) <$> lines)) p.
Proof.
  revert p. induction lines as [|line lines IH]; intros p.
  - cbn. rewrite app_nil_r. by destruct p.
  - cbn [foldl]. rewrite IH. destruct p. proc_simpl.
    cbn [fmap list_fmap]. by rewrite <- app_assoc.
Qed.

(** exitIfDone, in one piece. *)
Lemma exitIfDone_printed type n p :
  Startup.exitIfDone a type n p =
  Startup.set_printed
    (Startup.printed p ++
     (if String.eqb type "client" then []
      else Startup.flushed (Startup.clientLines p)) ++
     (if (S (Startup.callCount p) =? 2) &&
         (Startup.runServer a && Startup.runClient a &&
          Startup.browserDriver a)
      then (λ line, [Startup.LStr line]) <$>
           Startup.summary a (Startup.tally type n p)
      else []))
    (Startup.tally type n p).
Proof.
  unfold Startup.exitIfDone, Startup.tally.
  destruct (String.eqb type "client");
    rewrite ?flushClientLines_flushed; proc_simpl;
    destruct (S (Startup.callCount p) =? 2); cbn [andb];
    destruct (Startup.runServer a && Startup.runClient a &&
              Startup.browserDriver a);
    rewrite ?logs_printed; unfold Startup.summary; proc_simpl;
    rewrite ?app_nil_r; destruct p; proc_simpl;
    by rewrite <- ?app_assoc.
Qed.

Lemma exitIfDone_tally type n p :
  Startup.but_for_prints (Startup.tally type n p)
                         (Startup.exitIfDone a type n p).
Proof. rewrite exitIfDone_printed. apply but_for_prints_printed. Qed.

(** *** The invariant *)

Lemma orderly_but_for_prints p p' :
  Startup.but_for_prints p p' →
  Startup.orderly a p →
  Startup.orderly a p' ∧ Startup.exited p' = Startup.exited p ∧
  Startup.appended p' = Startup.appended p.
Proof.
  intros (pr & cl & ->). unfold Startup.orderly, Startup.verdict.
  by proc_simpl.
Qed.

Lemma tally_orderly type n p :
  Startup.orderly a p → Startup.exited p = None →
  Startup.orderly a (Startup.tally type n p) ∧
  Startup.exited (Startup.tally type n p) = None ∧
  Startup.appended (Startup.tally type n p) = Startup.appended p.
Proof.
  unfold Startup.orderly, Startup.tally. intros (Hb & Hc & _) Hex.
  destruct (String.eqb type "client"),
    (S (Startup.callCount p) =? 2) eqn:H2; proc_simpl; rewrite Hex;
    try apply Nat.eqb_eq in H2; split_and!; try done; lia.
Qed.

Lemma exitIfDone_orderly type n p :
  Startup.orderly a p → Startup.exited p = None →
  Startup.orderly a (Startup.exitIfDone a type n p) ∧
  Startup.exited (Startup.exitIfDone a type n p) = None ∧
  Startup.appended (Startup.exitIfDone a type n p) = Startup.appended p.
Proof.
  intros Hp Hex. destruct (tally_orderly type n p Hp Hex) as (Ht & Hext & Hat).
  destruct (orderly_but_for_prints _ _ (exitIfDone_tally type n p) Ht)
    as (? & -> & ->).
  done.
Qed.

Lemma log_orderly args p :
  Startup.orderly a p → Startup.exited p = None →
  Startup.orderly a (Startup.log args p) ∧
  Startup.exited (Startup.log args p) = None ∧
  Startup.appended (Startup.log args p) = Startup.appended p.
Proof.
  intros Hp Hex.
  destruct (orderly_but_for_prints _ _ (but_for_prints_log args p) Hp)
    as (? & -> & ->).
  done.
Qed.

Lemma clientTests_orderly p :
  Startup.orderly a p → Startup.exited p = None →
  Startup.orderly a (Startup.clientTests a p) ∧
  Startup.exited (Startup.clientTests a p) = None ∧
  Startup.appended (Startup.clientTests a p) = Startup.appended p.
Proof.
  intros Hp Hex. unfold Startup.clientTests.
  destruct (Startup.clientTestsRunning p) eqn:Hrun; [by apply log_orderly|].
  destruct (Startup.runClient a); cbn [negb].
  2: { destruct (log_orderly
                   [Startup.LStr "SKIPPING CLIENT TESTS BECAUSE TEST_CLIENT=0"]
                   p Hp Hex) as (H1 & H2 & <-).
       by apply exitIfDone_orderly. }
  destruct (Startup.browserDriver a); cbn [negb].
  2: { match goal with
       | |- context [Startup.log ?args p] =>
           destruct (log_orderly args p Hp Hex) as (H1 & H2 & <-)
       end.
       by apply exitIfDone_orderly. }
  destruct (but_for_prints_printHeader "CLIENT" p) as (pr & cl & ->).
  unfold Startup.orderly, Startup.verdict in *. proc_simpl.
  rewrite Hrun in Hp. rewrite Hex in *. split_and!; try done; lia.
Qed.

Lemma serverTestsCallback_orderly fc cb p :
  Startup.orderly a p → Startup.exited p = None →
  Startup.orderly a (Startup.serverTestsCallback a fc cb p) ∧
  Startup.exited (Startup.serverTestsCallback a fc cb p) = None ∧
  Startup.appended (Startup.serverTestsCallback a fc cb p) =
  Startup.appended p.
Proof.
  intros Hp Hex. unfold Startup.serverTestsCallback.
  match goal with
  | |- context [if cb then Startup.clientTests a ?q else _] =>
      assert (Startup.orderly a q ∧ Startup.exited q = None ∧
              Startup.appended q = Startup.appended p) as (H1 & H2 & <-)
  end.
  { destruct fc; try (by apply exitIfDone_orderly);
      match goal with
      | |- context [Startup.log ?args p] =>
          destruct (log_orderly args p Hp Hex) as (H1 & H2 & <-)
      end; by apply exitIfDone_orderly. }
  destruct cb; [by apply clientTests_orderly | done].
Qed.

Lemma browserDone_orderly fc p :
  Startup.orderly a p → Startup.exited p = None →
  Startup.browsersDone p < Startup.browsersStarted p →
  let q := Startup.browserDone a fc
             (Startup.set_browsersDone (S (Startup.browsersDone p)) p) in
  Startup.orderly a q ∧ Startup.exited q = None ∧
  Startup.appended q = Startup.appended p.
Proof.
  intros Hp Hex Hlt. cbn zeta. unfold Startup.browserDone.
  set (p1 := Startup.set_clientTestsRunning false _).
  assert (Startup.orderly a p1 ∧ Startup.exited p1 = None ∧
          Startup.appended p1 = Startup.appended p) as (H1 & H2 & <-).
  { unfold p1, Startup.orderly, Startup.verdict in *. proc_simpl.
    rewrite Hex in *. destruct Hp as (Hb & Hc & _).
    destruct (Startup.clientTestsRunning p); split_and!; try done; lia. }
  destruct fc; try (by apply exitIfDone_orderly);
    match goal with
    | |- context [Startup.log ?args p1] =>
        destruct (log_orderly args p1 H1 H2) as (H3 & H4 & <-)
    end; by apply exitIfDone_orderly.
Qed.

Lemma browserOutput_entry data p :
  Startup.browserOutput a data p =
  if Startup.goes_to_file a (Js.stripTrailingNewline data)
  then Startup.set_appended
         (Startup.appended p ++
          Startup.file_entry a (Js.stripTrailingNewline data)) p
  else Startup.clientLogBuffer (Js.stripTrailingNewline data) p.
Proof.
  unfold Startup.browserOutput, Startup.goes_to_file, Startup.file_entry,
    Startup.goes_to_file.
  destruct (Startup.clientOutput a) as [path|]; [|done].
  destruct (Js.truthy path); [|done]. cbn [andb].
  by destruct (_ || _).
Qed.

Lemma browserOutput_orderly data p :
  Startup.orderly a p → Startup.exited p = None →
  Startup.orderly a (Startup.browserOutput a data p) ∧
  Startup.exited (Startup.browserOutput a data p) = None ∧
  Startup.appended (Startup.browserOutput a data p) =
  Startup.appended p ++
  (if Startup.goes_to_file a (Js.stripTrailingNewline data)
   then Startup.file_entry a (Js.stripTrailingNewline data) else []).
Proof.
  intros Hp Hex. rewrite browserOutput_entry.
  destruct (Startup.goes_to_file a _).
  - unfold Startup.orderly, Startup.verdict in *. by proc_simpl.
  - destruct (orderly_but_for_prints _ _
                (but_for_prints_clientLogBuffer
                   (Js.stripTrailingNewline data) p) Hp) as (? & -> & ->).
    by rewrite app_nil_r.
Qed.

Lemma coverageHandled_orderly p :
  Startup.orderly a p → Startup.exited p = None → 0 < Startup.coverage p →
  let q := Startup.coverageHandled a
             (Startup.set_coverage (pred (Startup.coverage p)) p) in
  Startup.orderly a q ∧
  Startup.exited q =
    (if Startup.testWatch a then None else Some (Startup.verdict p)) ∧
  Startup.appended q = Startup.appended p.
Proof.
  intros (Hb & Hc & _) Hex Hcov. cbn zeta.
  unfold Startup.coverageHandled, Startup.orderly, Startup.verdict.
  proc_simpl.
  destruct (Startup.testWatch a) eqn:Hw; cbn [negb]; proc_simpl.
  - rewrite Hex. split_and!; try done. lia.
  - destruct (0 <? Startup.clientFailures p + Startup.serverFailures p)%Z
      eqn:Hv; proc_simpl; rewrite ?Hv; split_and!; try done; lia.
Qed.

Lemma restartClient_orderly message options p :
  Startup.orderly a p → Startup.exited p = None →
  Startup.orderly a (Startup.restartClient a message options p) ∧
  Startup.exited (Startup.restartClient a message options p) = None ∧
  Startup.appended (Startup.restartClient a message options p) =
  Startup.appended p.
Proof.
  intros Hp Hex. unfold Startup.restartClient.
  match goal with
  | |- context [Startup.log ?args p] =>
      destruct (log_orderly args p Hp Hex) as (H1 & H2 & <-)
  end.
  by apply clientTests_orderly.
Qed.

Lemma serverTests_orderly cb p :
  Startup.orderly a p → Startup.exited p = None →
  Startup.orderly a (Startup.serverTests a cb p) ∧
  Startup.exited (Startup.serverTests a cb p) = None ∧
  Startup.appended (Startup.serverTests a cb p) = Startup.appended p.
Proof.
  intros Hp Hex. unfold Startup.serverTests.
  destruct (Startup.runServer a); cbn [negb].
  - destruct (but_for_prints_printHeader "SERVER" p) as (pr & cl & ->).
    unfold Startup.orderly, Startup.verdict in *. by proc_simpl.
  - match goal with
    | |- context [Startup.log ?args p] =>
        destruct (log_orderly args p Hp Hex) as (H1 & H2 & <-)
    end.
    match goal with
    | |- context [Startup.exitIfDone a ?t ?n ?q] =>
        destruct (exitIfDone_orderly t n q H1 H2) as (H3 & H4 & <-)
    end.
    destruct cb; [|done].
    by apply clientTests_orderly.
Qed.

Lemma start_orderly m0 :
  Startup.orderly a (Startup.start a (Startup.loaded m0)) ∧
  Startup.exited (Startup.start a (Startup.loaded m0)) = None ∧
  Startup.appended (Startup.start a (Startup.loaded m0)) = [].
Proof.
  assert (Startup.orderly a (Startup.loaded m0)) as H0.
  { unfold Startup.orderly. cbn. split_and!; [done|lia|done]. }
  change (@nil (string * string)) with (Startup.appended (Startup.loaded m0)).
  unfold Startup.start. destruct (Startup.runParallel a).
  - match goal with
    | |- context [Startup.log ?args ?p] =>
        destruct (log_orderly args p H0 eq_refl) as (H1 & H2 & <-)
    end.
    match goal with
    | |- context [Startup.serverTests a ?cb ?q] =>
        destruct (serverTests_orderly cb q H1 H2) as (H3 & H4 & <-)
    end.
    by apply clientTests_orderly.
  - by apply serverTests_orderly.
Qed.

(** One answer: the invariant holds on, and the output file gets the
    line of a browser's output that goes to it and nothing else. *)
Lemma react_orderly t p :
  Startup.orderly a p →
  Startup.orderly a (Startup.react a t p) ∧
  ∃ more,
    Startup.appended (Startup.react a t p) = Startup.appended p ++ more ∧
    Forall (λ e, ∃ line,
              Startup.clientOutput a = Some e.1 ∧ e.2 = line +:+ nl ∧
              Startup.goes_to_file a line = true) more.
Proof.
  intros Hp. unfold Startup.react.
  destruct (Startup.exited p) as [code|] eqn:Hex.
  { split; [done|]. exists []. by rewrite app_nil_r. }
  assert (∀ q, Startup.orderly a q ∧ Startup.exited q = None ∧
               Startup.appended q = Startup.appended p →
               Startup.orderly a q ∧
               ∃ more,
                 Startup.appended q = Startup.appended p ++ more ∧
                 Forall (λ e, ∃ line,
                           Startup.clientOutput a = Some e.1 ∧
                           e.2 = line +:+ nl ∧
                           Startup.goes_to_file a line = true) more)
    as Hquiet.
  { intros q (? & _ & ->). split; [done|]. exists [].
    by rewrite app_nil_r. }
  destruct t as [fc|data|fc| |options|options].
  - destruct (Startup.awaited p) as [cb|] eqn:Haw; [|by apply Hquiet].
    apply Hquiet.
    assert (Startup.orderly a (Startup.set_awaited None p)) as Hp'.
    { unfold Startup.orderly, Startup.verdict in *. by proc_simpl. }
    by apply (serverTestsCallback_orderly fc cb _ Hp').
  - destruct (0 <? Startup.browsersStarted p); [|by apply Hquiet].
    destruct (browserOutput_orderly data p Hp Hex) as (H1 & H2 & ->).
    split; [done|]. eexists. split; [done|].
    destruct (Startup.goes_to_file a _) eqn:Hfile; [|done].
    unfold Startup.file_entry. rewrite Hfile.
    destruct (Startup.clientOutput a) as [path|] eqn:Hout; [|done].
    repeat constructor. by eexists.
  - destruct (Nat.ltb_spec (Startup.browsersDone p)
                           (Startup.browsersStarted p)) as [Hlt|Hge];
      [|by apply Hquiet].
    apply Hquiet. by apply browserDone_orderly.
  - destruct (Nat.ltb_spec 0 (Startup.coverage p)) as [Hlt|Hge];
      [|by apply Hquiet].
    destruct (coverageHandled_orderly p Hp Hex Hlt) as (H1 & _ & H3).
    split; [done|]. exists []. by rewrite app_nil_r.
  - apply Hquiet. by apply restartClient_orderly.
  - apply Hquiet. by apply restartClient_orderly.
Qed.

Lemma run_orderly ts p :
  Startup.orderly a p →
  Startup.orderly a (Startup.run a ts p) ∧
  ∃ more,
    Startup.appended (Startup.run a ts p) = Startup.appended p ++ more ∧
    Forall (λ e, ∃ line,
              Startup.clientOutput a = Some e.1 ∧ e.2 = line +:+ nl ∧
              Startup.goes_to_file a line = true) more.
Proof.
  revert p. induction ts as [|t ts IH]; intros p Hp.
  - split; [done|]. exists []. by rewrite app_nil_r.
  - cbn [Startup.run foldl]. fold (Startup.run a ts (Startup.react a t p)).
    destruct (react_orderly t p Hp) as (Hp1 & more1 & Ha1 & Hm1).
    destruct (IH _ Hp1) as (Hp2 & more2 & Ha2 & Hm2).
    split; [done|]. exists (more1 ++ more2).
    split; [by rewrite Ha2, Ha1, <- app_assoc | by apply Forall_app].
Qed.


Lemma started_orderly m0 ts :
  Startup.orderly a (Startup.run a ts (Startup.start a (Startup.loaded m0))).
Proof.
  destruct (start_orderly m0) as (H0 & _).
  by destruct (run_orderly ts _ H0).
Qed.

Lemma react_browserOutput data p :
  Startup.exited p = None → 0 < Startup.browsersStarted p →
  Startup.react a (Startup.BrowserOutput data) p =
  Startup.browserOutput a data p.
Proof.
  intros Hex Hb. unfold Startup.react. rewrite Hex.
  by destruct (Nat.ltb_spec 0 (Startup.browsersStarted p)); [|lia].
Qed.

Lemma run_browserOutput output p :
  Startup.exited p = None → 0 < Startup.browsersStarted p →
  Startup.run a (Startup.BrowserOutput <$> output) p =
  Startup.set_appended
    (Startup.appended p ++
     flat_map (Startup.file_entry a) (Js.stripTrailingNewline <$> output))
    (if Startup.serverTestsDone p
     then Startup.set_printed
            (Startup.printed p ++
             ((λ line, [Startup.LStr line]) <$>
              List.filter (λ line, negb (Startup.goes_to_file a line))
                          (Js.stripTrailingNewline <$> output))) p
     else Startup.set_clientLines
            (Startup.clientLines p ++
             List.filter (λ line, negb (Startup.goes_to_file a line))
                         (Js.stripTrailingNewline <$> output)) p).
Proof.
  revert p. induction output as [|data output IH]; intros p Hex Hb.
  - cbn. rewrite !app_nil_r. by destruct p, serverTestsDone.
  - cbn [fmap list_fmap Startup.run foldl].
    fold (Startup.run a (Startup.BrowserOutput <$> output)
            (Startup.react a (Startup.BrowserOutput data) p)).
    rewrite react_browserOutput, browserOutput_entry by done.
    cbn [flat_map List.filter].
    destruct (Startup.goes_to_file a (Js.stripTrailingNewline data)) eqn:Hf.
    + rewrite IH by done. cbn [negb]. unfold Startup.file_entry at 3.
      rewrite Hf. destruct (Startup.clientOutput a) as [path|] eqn:Hout.
      * destruct p, serverTestsDone; proc_simpl; by rewrite <- app_assoc.
      * unfold Startup.goes_to_file in Hf. by rewrite Hout in Hf.
    + unfold Startup.clientLogBuffer.
      assert (Startup.file_entry a (Js.stripTrailingNewline data) = [])
        as ->.
      { unfold Startup.file_entry. rewrite Hf. by destruct (Startup.clientOutput a). }
      cbn [negb app].
      destruct (Startup.serverTestsDone p) eqn:Hd.
      * rewrite IH by done. proc_simpl. rewrite Hd.
        destruct p; proc_simpl. cbn [fmap list_fmap].
        by rewrite <- app_assoc.
      * rewrite IH by done. proc_simpl. rewrite Hd.
        destruct p; proc_simpl. by rewrite <- app_assoc.
Qed.

End StartupFacts.

(** X20.  In the process that runs its tests at startup, whatever answers
    arrive: the process has exited only if it does not watch and after
    exitIfDone has been called at least twice, and then with status 1 if the
    failures counted for the client and the server add up to more than zero
    and with status 0 otherwise; the coverage handler is not called before
    the second call of exitIfDone; and after the exit nothing happens any
    more. *)
Theorem process_exits_only_when_done
    (a : Startup.arguments) (m0 : mocha) (ts : list Startup.trigger) :
  let p := Startup.run a ts (Startup.start a (Startup.loaded m0)) in
  (∀ code, Startup.exited p = Some code →
     Startup.testWatch a = false ∧ 2 ≤ Startup.callCount p ∧
     code = Startup.verdict p)
  ∧ (Startup.testWatch a = true → Startup.exited p = None)
  ∧ (0 < Startup.coverage p → 2 ≤ Startup.callCount p)
  ∧ (∀ t, Startup.exited p ≠ None → Startup.react a t p = p).
Proof.
  cbn zeta. destruct (started_orderly a m0 ts) as (_ & Hc & He).
  split_and!.
  - intros code Hex. by rewrite Hex in He.
  - intros Hw. destruct (Startup.exited _) as [code|]; [|done].
    destruct He as (He & _). congruence.
  - done.
  - intros t Hex. unfold Startup.react. by destruct (Startup.exited _).
Qed.

Lemma process_exits_only_when_done_witness :
  Startup.exited
    (Startup.run
       (Startup.mkArguments Sample.cfg true true true true false None false
          None None)
       [ Startup.ServerRunnerDone (JNum 1); Startup.BrowserDone (JNum 0);
         Startup.CoverageHandled ]
       (Startup.start
          (Startup.mkArguments Sample.cfg true true true true false None
             false None None)
          (Startup.loaded Sample.mocha0))) = None.
Proof.
  apply (process_exits_only_when_done
           (Startup.mkArguments Sample.cfg true true true true false None
              false None None)
           Sample.mocha0
           [ Startup.ServerRunnerDone (JNum 1); Startup.BrowserDone (JNum 0);
             Startup.CoverageHandled ]).
  reflexivity.
Defined.

(** X21.  At most one browser runs at a time: clientTestsRunning is set
    exactly while the browser started last has not called done, all browsers
    started before have, and a message that asks for a restart of the client
    tests in that time only prints two lines. *)
Theorem at_most_one_browser_runs
    (a : Startup.arguments) (m0 : mocha) (ts : list Startup.trigger) :
  let p := Startup.run a ts (Startup.start a (Startup.loaded m0)) in
  Startup.browsersStarted p =
    Startup.browsersDone p +
    (if Startup.clientTestsRunning p then 1 else 0)
  ∧ (Startup.clientTestsRunning p = true →
     ∀ message options,
       Startup.restartClient a message options p =
       Startup.set_printed
         (Startup.printed p ++
          [ [ Startup.LStr
                ("CLIENT TESTS RESTARTING (" +:+ message +:+ ")");
              match options with Some o => o | None => Startup.LStr "" end ];
            [ Startup.LStr "CLIENT TESTS ALREADY RUNNING" ] ]) p).
Proof.
  cbn zeta. destruct (started_orderly a m0 ts) as (Hb & _ & _).
  split; [done|]. intros Hrun message options.
  unfold Startup.restartClient, Startup.clientTests. proc_simpl.
  rewrite Hrun. destruct (Startup.run _ _ _). unfold Startup.log.
  proc_simpl. by rewrite <- app_assoc.
Qed.

Lemma at_most_one_browser_runs_witness :
  Startup.browsersStarted
    (Startup.restartClient
       (Startup.mkArguments Sample.cfg true true true false false None false
          None None)
       "client-refresh" None
       (Startup.run
          (Startup.mkArguments Sample.cfg true true true false false None
             false None None)
          [Startup.ServerRunnerDone (JNum 0)]
          (Startup.start
             (Startup.mkArguments Sample.cfg true true true false false None
                false None None)
             (Startup.loaded Sample.mocha0)))) = 1.
Proof.
  destruct (at_most_one_browser_runs
              (Startup.mkArguments Sample.cfg true true true false false None
                 false None None)
              Sample.mocha0 [Startup.ServerRunnerDone (JNum 0)])
    as (_ & H).
  rewrite H by reflexivity. reflexivity.
Defined.

(** X22.  The lines of the browser's output that are not for the output file
    are kept in the buffer, in order, while the server tests have not
    reported, and printed one by one once they have. When the server tests
    report, exitIfDone prints the buffer first: one call of console.log for
    each buffered line, in order, with the line, its index and the whole
    buffer as arguments. *)
Theorem client_lines_wait_for_the_server
    (a : Startup.arguments) (p : Startup.process) (output : list string)
    (failures : Z) :
  Startup.exited p = None → 0 < Startup.browsersStarted p →
  let lines := Js.stripTrailingNewline <$> output in
  let kept :=
    List.filter (λ line, negb (Startup.goes_to_file a line)) lines in
  let p' := Startup.run a (Startup.BrowserOutput <$> output) p in
  (Startup.serverTestsDone p = false →
   Startup.printed p' = Startup.printed p ∧
   Startup.clientLines p' = Startup.clientLines p ++ kept)
  ∧ (Startup.serverTestsDone p = true →
     Startup.printed p' =
       Startup.printed p ++ ((λ line, [Startup.LStr line]) <$> kept) ∧
     Startup.clientLines p' = Startup.clientLines p)
  ∧ Startup.appended p' =
      Startup.appended p ++ flat_map (Startup.file_entry a) lines
  ∧ Startup.serverTestsDone (Startup.exitIfDone a "server" failures p) = true
  ∧ ∃ more,
      Startup.printed (Startup.exitIfDone a "server" failures p) =
      Startup.printed p ++
      imap (λ index line,
              [ Startup.LStr line; Startup.LNum index;
                Startup.LArr (Startup.clientLines p) ])
           (Startup.clientLines p) ++ more.
Proof.
  intros Hex Hb. cbn zeta. rewrite run_browserOutput by done.
  rewrite exitIfDone_printed. proc_simpl.
  split_and!.
  - intros ->. by proc_simpl.
  - intros ->. by proc_simpl.
  - done.
  - unfold Startup.tally. cbn [String.eqb Ascii.eqb Bool.eqb]. proc_simpl.
    by destruct (_ =? _).
  - eexists. cbn [String.eqb Ascii.eqb Bool.eqb]. reflexivity.
Qed.

Lemma client_lines_wait_for_the_server_witness :
  Startup.clientLines
    (Startup.run
       (Startup.mkArguments Sample.cfg true true true false true None false
          None None)
       (Startup.BrowserOutput <$> ["one" +:+ nl; "two"])
       (Startup.start
          (Startup.mkArguments Sample.cfg true true true false true None
             false None None)
          (Startup.loaded Sample.mocha0))) =
  headerLines Sample.cfg "CLIENT" ++ ["one"; "two"].
Proof.
  destruct (client_lines_wait_for_the_server
              (Startup.mkArguments Sample.cfg true true true false true None
                 false None None)
              (Startup.start
                 (Startup.mkArguments Sample.cfg true true true false true
                    None false None None)
                 (Startup.loaded Sample.mocha0))
              ["one" +:+ nl; "two"] 0 eq_refl)
    as (H & _).
  - by vm_compute.
  - destruct (H eq_refl) as (_ & ->). reflexivity.
Defined.

(** X23.  Whatever answers arrive, the output file gets nothing but lines of
    the browser's output, each followed by a newline, and of those only the
    ones the reporter rule sends to the file: with the xunit reporter every
    line appended starts, after white space, with "<"; without a client
    output file nothing is appended. *)
Theorem output_file_gets_only_reporter_lines
    (a : Startup.arguments) (m0 : mocha) (ts : list Startup.trigger) :
  let p := Startup.run a ts (Startup.start a (Startup.loaded m0)) in
  Forall (λ e, ∃ line,
            Startup.clientOutput a = Some e.1 ∧ e.2 = line +:+ nl ∧
            Startup.goes_to_file a line = true)
         (Startup.appended p)
  ∧ (Startup.clientReporter a = Some "xunit" →
     Forall (λ e, ∃ line,
               e.2 = line +:+ nl ∧ Startup.isXunitLine line = true)
            (Startup.appended p))
  ∧ (Startup.clientOutput a = None → Startup.appended p = []).
Proof.
  cbn zeta. destruct (start_orderly a m0) as (H0 & _ & Ha0).
  destruct (run_orderly a ts _ H0) as (_ & more & -> & Hmore).
  rewrite Ha0. cbn [app]. split_and!.
  - done.
  - intros Hx. eapply Forall_impl; [exact Hmore|].
    intros e (line & Hout & He & Hfile). exists line. split; [done|].
    unfold Startup.goes_to_file in Hfile. rewrite Hout, Hx in Hfile.
    rewrite bool_decide_eq_true_2 in Hfile by done.
    by apply andb_prop in Hfile as [_ Hfile].
  - intros Hnone. destruct Hmore as [|e more (line & Hout & _) _]; [done|].
    congruence.
Qed.

Lemma output_file_gets_only_reporter_lines_witness :
  Forall (λ e, ∃ line, e.2 = line +:+ nl ∧ Startup.isXunitLine line = true)
    (Startup.appended
       (Startup.run
          (Startup.mkArguments Sample.cfg true true true false false None
             false (Some "xunit") (Some "out.xml"))
          [ Startup.ServerRunnerDone (JNum 0);
            Startup.BrowserOutput "loading"; Startup.BrowserOutput " <a/>" ]
          (Startup.start
             (Startup.mkArguments Sample.cfg true true true false false None
                false (Some "xunit") (Some "out.xml"))
             (Startup.loaded Sample.mocha0)))).
Proof.
  apply (output_file_gets_only_reporter_lines
           (Startup.mkArguments Sample.cfg true true true false false None
              false (Some "xunit") (Some "out.xml"))
           Sample.mocha0
           [ Startup.ServerRunnerDone (JNum 0);
             Startup.BrowserOutput "loading";
             Startup.BrowserOutput " <a/>" ]).
  reflexivity.
Defined.



(** *** What the browser prints decides nothing *)

(** The variables that [Startup.silent] leaves as they are. *)
Ltac silent_fields :=
  repeat first
    [ progress change (Startup.serverTestsDone (Startup.silent ?p))
        with (Startup.serverTestsDone p)
    | progress change (Startup.clientTestsRunning (Startup.silent ?p))
        with (Startup.clientTestsRunning p)
    | progress change (Startup.callCount (Startup.silent ?p))
        with (Startup.callCount p)
    | progress change (Startup.clientFailures (Startup.silent ?p))
        with (Startup.clientFailures p)
    | progress change (Startup.serverFailures (Startup.silent ?p))
        with (Startup.serverFailures p)
    | progress change (Startup.runner (Startup.silent ?p))
        with (Startup.runner p)
    | progress change (Startup.browsersStarted (Startup.silent ?p))
        with (Startup.browsersStarted p)
    | progress change (Startup.browsersDone (Startup.silent ?p))
        with (Startup.browsersDone p)
    | progress change (Startup.awaited (Startup.silent ?p))
        with (Startup.awaited p)
    | progress change (Startup.coverage (Startup.silent ?p))
        with (Startup.coverage p)
    | progress change (Startup.exited (Startup.silent ?p))
        with (Startup.exited p) ].

Section StartupSilent.

Context (a : Startup.arguments).

Implicit Types p q : Startup.process.

Lemma silent_but_for_prints p p' :
  Startup.but_for_prints p p' → Startup.silent p' = Startup.silent p.
Proof. intros (pr & cl & ->). by destruct p. Qed.

Lemma silent_idem p : Startup.silent (Startup.silent p) = Startup.silent p.
Proof. by destruct p. Qed.

Lemma silent_log args p :
  Startup.silent (Startup.log args p) = Startup.silent p.
Proof. apply silent_but_for_prints, but_for_prints_log. Qed.

Lemma silent_printHeader type p :
  Startup.silent (Startup.printHeader a type p) = Startup.silent p.
Proof. apply silent_but_for_prints, but_for_prints_printHeader. Qed.

Lemma silent_tally type n p :
  Startup.silent (Startup.tally type n p) =
  Startup.tally type n (Startup.silent p).
Proof.
  unfold Startup.tally, Startup.silent. proc_simpl.
  destruct (String.eqb type "client"), (S (Startup.callCount p) =? 2);
    by destruct p.
Qed.

Lemma silent_exitIfDone type n p :
  Startup.silent (Startup.exitIfDone a type n p) =
  Startup.tally type n (Startup.silent p).
Proof.
  rewrite (silent_but_for_prints _ _ (exitIfDone_tally a type n p)).
  apply silent_tally.
Qed.

Lemma silent_clientTests p :
  Startup.silent (Startup.clientTests a p) =
  Startup.silent (Startup.clientTests a (Startup.silent p)).
Proof.
  unfold Startup.clientTests. silent_fields.
  destruct (Startup.clientTestsRunning p);
    [by rewrite !silent_log, silent_idem|].
  destruct (Startup.runClient a); cbn [negb];
    [|by rewrite !silent_exitIfDone, !silent_log, silent_idem].
  destruct (Startup.browserDriver a); cbn [negb];
    [|by rewrite !silent_exitIfDone, !silent_log, silent_idem].
  destruct (but_for_prints_printHeader a "CLIENT" p) as (pr & cl & ->).
  destruct (but_for_prints_printHeader a "CLIENT" (Startup.silent p))
    as (pr' & cl' & ->).
  by destruct p.
Qed.

Lemma silent_serverTestsCallback fc cb p :
  Startup.silent (Startup.serverTestsCallback a fc cb p) =
  Startup.silent (Startup.serverTestsCallback a fc cb (Startup.silent p)).
Proof.
  unfold Startup.serverTestsCallback.
  destruct cb; [rewrite silent_clientTests; symmetry;
                rewrite silent_clientTests; symmetry; f_equal; f_equal|];
    destruct fc; by rewrite !silent_exitIfDone, ?silent_log, silent_idem.
Qed.

Lemma silent_browserDone fc p :
  Startup.silent (Startup.browserDone a fc p) =
  Startup.silent (Startup.browserDone a fc (Startup.silent p)).
Proof.
  unfold Startup.browserDone.
  assert (Startup.silent
            (Startup.set_clientTestsRunning false (Startup.silent p)) =
          Startup.silent (Startup.set_clientTestsRunning false p)) as Hs
    by by destruct p.
  destruct fc; by rewrite !silent_exitIfDone, ?silent_log, Hs.
Qed.

Lemma silent_restartClient message options p :
  Startup.silent (Startup.restartClient a message options p) =
  Startup.silent
    (Startup.restartClient a message options (Startup.silent p)).
Proof.
  unfold Startup.restartClient. rewrite silent_clientTests. symmetry.
  rewrite silent_clientTests. by rewrite !silent_log, silent_idem.
Qed.

Lemma silent_react t p :
  Startup.silent (Startup.react a t p) =
  Startup.silent (Startup.react a t (Startup.silent p)).
Proof.
  unfold Startup.react. silent_fields.
  destruct (Startup.exited p); [by rewrite silent_idem|].
  destruct t as [fc|data|fc| |options|options].
  - destruct (Startup.awaited p) as [cb|]; [|by rewrite silent_idem].
    rewrite silent_serverTestsCallback. symmetry.
    rewrite silent_serverTestsCallback. f_equal; f_equal; by destruct p.
  - destruct (0 <? Startup.browsersStarted p); [|by rewrite silent_idem].
    assert (∀ q, Startup.silent (Startup.browserOutput a data q) =
                 Startup.silent q) as Hout.
    { intros q. rewrite browserOutput_entry.
      destruct (Startup.goes_to_file a _); [by destruct q|].
      apply silent_but_for_prints, but_for_prints_clientLogBuffer. }
    by rewrite !Hout, silent_idem.
  - destruct (Startup.browsersDone p <? Startup.browsersStarted p);
      [|by rewrite silent_idem].
    rewrite silent_browserDone. symmetry. rewrite silent_browserDone.
    f_equal; f_equal; by destruct p.
  - destruct (0 <? Startup.coverage p); [|by rewrite silent_idem].
    unfold Startup.coverageHandled. proc_simpl.
    destruct (Startup.testWatch a); cbn [negb]; [by destruct p|].
    destruct (_ <? _)%Z; by destruct p.
  - apply silent_restartClient.
  - apply silent_restartClient.
Qed.

Lemma silent_run ts p :
  Startup.silent (Startup.run a ts p) =
  Startup.silent (Startup.run a ts (Startup.silent p)).
Proof.
  revert p. induction ts as [|t ts IH]; intros p.
  - cbn. by rewrite silent_idem.
  - cbn [Startup.run foldl]. fold (Startup.run a ts (Startup.react a t p)).
    fold (Startup.run a ts (Startup.react a t (Startup.silent p))).
    rewrite IH, silent_react, <- IH. done.
Qed.

Lemma silent_react_output data p :
  Startup.silent (Startup.react a (Startup.BrowserOutput data) p) =
  Startup.silent p.
Proof.
  unfold Startup.react. destruct (Startup.exited p); [done|].
  destruct (0 <? Startup.browsersStarted p); [|done].
  rewrite browserOutput_entry.
  destruct (Startup.goes_to_file a _); [by destruct p|].
  apply silent_but_for_prints, but_for_prints_clientLogBuffer.
Qed.

Lemma silent_run_not_output ts p :
  Startup.silent (Startup.run a ts p) =
  Startup.silent (Startup.run a (List.filter Startup.not_output ts) p).
Proof.
  revert p. induction ts as [|t ts IH]; intros p; [done|].
  cbn [Startup.run foldl List.filter].
  fold (Startup.run a ts (Startup.react a t p)).
  destruct t as [fc|data|fc| |options|options]; cbn [Startup.not_output];
    try (cbn [Startup.run foldl]; apply IH).
  rewrite silent_run, silent_react_output, <- silent_run. apply IH.
Qed.

End StartupSilent.

(** X26.  What the browser prints decides nothing but what is printed,
    buffered and appended: after any sequence of answers the failure counts,
    the number of calls of exitIfDone, the exit status and every other
    variable of the process are what they would be had the browser printed
    nothing. *)
Theorem browser_output_decides_nothing
    (a : Startup.arguments) (ts : list Startup.trigger)
    (p : Startup.process) :
  Startup.silent (Startup.run a ts p) =
  Startup.silent (Startup.run a (List.filter Startup.not_output ts) p)
  ∧ Startup.exited (Startup.run a ts p) =
    Startup.exited (Startup.run a (List.filter Startup.not_output ts) p)
  ∧ Startup.clientFailures (Startup.run a ts p) =
    Startup.clientFailures
      (Startup.run a (List.filter Startup.not_output ts) p)
  ∧ Startup.serverFailures (Startup.run a ts p) =
    Startup.serverFailures
      (Startup.run a (List.filter Startup.not_output ts) p).
Proof.
  pose proof (silent_run_not_output a ts p) as H.
  split_and!; [done| | |].
  - by apply (f_equal Startup.exited) in H.
  - by apply (f_equal Startup.clientFailures) in H.
  - by apply (f_equal Startup.serverFailures) in H.
Qed.



(** ** The event stream of one run *)

Section Stream.

Context (cfg : config).






End Stream.




